(** * goa request dispatch core: a shallow embedding of [service.go]

    The development follows [service.go]: the error value and the response
    tracker first, then the two error-handler policies, the controller's
    [HandleError] and [MuxHandler], and the service's [ServeFiles].

    Go functions with effects are functions in the monad [M]: they read and
    update a [World] (the response tracker of the request in flight, the
    logger's output, the detached counter updates, the files handed to
    [http.ServeFile]) and may panic. The middleware slices of services and
    controllers are headers over backing arrays kept in a store, which the
    code that registers middleware passes on explicitly and which an entry
    point reads as it is when a request arrives. *)

From stdpp Require Import base numbers option list strings gmap pretty.

Local Open Scope string_scope.
Local Open Scope list_scope.

(** ** Error values *)

(** Modelled from the spec: the [Error] struct is declared outside
    [service.go]; the spec describes it as "a structured error carrying an
    HTTP status and message". [Status] is a Go [int]; it is only copied and
    compared, so no wrap-around is involved. *)
Record Error := mkError { Status : Z; Message : string }.

(** A Go [error] interface value that is not nil: either a [*Error] (the
    case selected by the type switch [e.(type)] and by the type
    assertion on [err]), or any other error, of which only the text is used.
    Pointers to [Error] are taken to be non-nil. *)
Inductive GoError :=
| Structured (e : Error)
| Opaque (msg : string).

(** The method [Error()] of the interface. *)
Definition Error_text (e : GoError) : string :=
  match e with
  | Structured s => Message s
  | Opaque msg => msg
  end.

(** [fmt.Errorf] with the formats used in [service.go]. *)
Definition Errorf (text : string) : GoError := Opaque text.

(** Modelled from the spec: [ErrInvalidEncoding] is declared outside
    [service.go]; the spec calls it the dedicated "invalid payload" error,
    of status 400. It wraps the decoding error it is applied to. *)
Definition ErrInvalidEncoding (cause : GoError) : GoError :=
  Structured (mkError 400 (Error_text cause)).

(** ** Response bodies, requests, contexts *)

(** The [interface{}] handed to [Send]: the two policies pass either the
    structured error itself or a string. *)
Inductive Body :=
| BodyError (e : Error)
| BodyString (s : string).

(** [http.Request], with the fields [service.go] reads. [ContentLength] is
    an [int64]: -1 when the length is unknown. *)
Record Request := mkRequest { ContentLength : Z; URLPath : string }.

(** [http.ResponseWriter] values seen by handlers: the writer given by the
    mux, and the tracker [ContextResponse(ctx)] wrapping it. *)
Inductive ResponseWriter := RawWriter | Tracker.

(** [RequestData]: the request together with the mux parameters
    ([url.Values], a map from names to lists of values). *)
Record RequestData := mkRequestData {
  rdRequest : Request;
  Params : gmap string (list string)
}.

(** [context.Context], with the bindings [service.go] creates: the values
    set by [context.WithValue], the logger pairs added by [LogWith] and the
    request state loaded by [NewContext]. *)
Record Context := mkContext {
  ctxValues : list (string * string);
  ctxLogWith : list (string * string);
  ctxRequest : option RequestData
}.

(** ** The world a request runs in *)

(** Modelled from the spec: the Response State Tracker ([ResponseData]) is
    declared outside [service.go]. It "records whether the status line and
    body have been written" and wraps the real writer; [wire] is what
    reached that writer, oldest first. *)
Record ResponseData := mkResponseData {
  written : bool;
  wire : list (Z * Body)
}.

Inductive LogLevel := LevelInfo | LevelError.

Record LogEntry := mkLogEntry {
  level : LogLevel;
  msg : string;
  keyvals : list (string * string)
}.

Record World := mkWorld {
  response : ResponseData;        (* the tracker of the request in flight *)
  logs : list LogEntry;            (* output of the logger, oldest first *)
  spawned : list (list string);    (* counters bumped by [go IncrCounter] *)
  served : list string             (* paths handed to [http.ServeFile] *)
}.

Definition set_response (r : ResponseData) (w : World) : World :=
  mkWorld r (logs w) (spawned w) (served w).
Definition add_log (l : LogEntry) (w : World) : World :=
  mkWorld (response w) (logs w ++ [l]) (spawned w) (served w).
Definition add_spawned (k : list string) (w : World) : World :=
  mkWorld (response w) (logs w) (spawned w ++ [k]) (served w).
Definition add_served (p : string) (w : World) : World :=
  mkWorld (response w) (logs w) (spawned w) (served w ++ [p]).

(** ** The monad of request-time code *)

Inductive Outcome (A : Type) :=
| Ret (a : A) (w : World)     (* normal return *)
| Panicked (w : World).       (* a Go panic, with the world reached *)
Arguments Ret {A} a w.
Arguments Panicked {A} w.

Definition M (A : Type) : Type := World -> Outcome A.

Definition ret {A} (a : A) : M A := fun w => Ret a w.
Definition panic {A} : M A := fun w => Panicked w.
Definition bind {A B} (m : M A) (k : A -> M B) : M B :=
  fun w => match m w with
           | Ret a w' => k a w'
           | Panicked w' => Panicked w'
           end.

Notation "x <- m ;; k" := (bind m (fun x => k))
  (at level 100, m at next level, right associativity, only parsing).
Notation "m ;; k" := (bind m (fun _ => k))
  (at level 100, right associativity, only parsing).

(** The world an outcome ends in, and whether it is a normal return. *)
Definition world_of {A} (o : Outcome A) : World :=
  match o with Ret _ w => w | Panicked w => w end.
Definition returns {A} (o : Outcome A) : bool :=
  match o with Ret _ _ => true | Panicked _ => false end.

(** ** Signatures (the [type] block of [service.go]) *)

Definition Handler : Type :=
  Context -> ResponseWriter -> Request -> M (option GoError).
Definition ErrorHandler : Type :=
  Context -> ResponseWriter -> Request -> GoError -> M unit.
Definition Unmarshaler : Type := Context -> Request -> M (option GoError).
(** Declared outside [service.go]: [Middleware] wraps a handler into a
    handler, [MuxHandler] is the entry point the mux calls. *)
Definition Middleware : Type := Handler -> Handler.
Definition MuxHandlerT : Type :=
  ResponseWriter -> Request -> gmap string (list string) -> M unit.

(** ** Collaborators of [service.go] *)

(** Modelled from the spec: [Written] and [Send] of the Response State
    Tracker are declared outside [service.go]. "[send(status, body)] -
    fails/no-ops if a response was already sent for this request; otherwise
    serializes [body] ..., writes the status line, marks written." The
    error [Send] returns is dropped by both callers and is not modelled. *)
Definition Written : M bool := fun w => Ret (written (response w)) w.

Definition send_to (status : Z) (body : Body) (r : ResponseData) : ResponseData :=
  if written r then r
  else mkResponseData true (wire r ++ [(status, body)]).

Definition Send (status : Z) (body : Body) : M unit :=
  fun w => Ret tt (set_response (send_to status body (response w)) w).

(** The logger: [LogInfo] and [LogError] append to the logger's output. *)
Definition LogInfo (m : string) (kv : list (string * string)) : M unit :=
  fun w => Ret tt (add_log (mkLogEntry LevelInfo m kv) w).
Definition LogError (m : string) (kv : list (string * string)) : M unit :=
  fun w => Ret tt (add_log (mkLogEntry LevelError m kv) w).

(** [go IncrCounter(key, 1.0)]: the update runs detached from the request;
    the model records that it was started. *)
Definition go_IncrCounter (key : list string) : M unit :=
  fun w => Ret tt (add_spawned key w).

(** [strconv.Itoa]. *)
Definition Itoa (n : Z) : string := pretty n.

(** [LogWith(ctx, k, v)] and [context.WithValue(ctx, k, v)]. *)
Definition LogWith (ctx : Context) (k v : string) : Context :=
  mkContext (ctxValues ctx) (ctxLogWith ctx ++ [(k, v)]) (ctxRequest ctx).
Definition WithValue (ctx : Context) (k v : string) : Context :=
  mkContext ((k, v) :: ctxValues ctx) (ctxLogWith ctx) (ctxRequest ctx).

(** Modelled from the spec: [NewContext] is declared outside [service.go].
    "each request creates a new leaf binding carrying the live request
    object, response tracker, path/query parameter map"; the tracker is
    "created per request", so the request starts with nothing written. *)
Definition fresh_response : ResponseData := mkResponseData false [].

Definition NewContext (base : Context) (rw : ResponseWriter) (req : Request)
    (params : gmap string (list string)) : M Context :=
  fun w => Ret (mkContext (ctxValues base) (ctxLogWith base)
                          (Some (mkRequestData req params)))
               (set_response fresh_response w).

(** ** The error handlers (lines 274-312) *)

Definition DefaultErrorHandler : ErrorHandler := fun ctx rw req e =>
  let status := match e with Structured err => Status err | Opaque _ => 500%Z end in
  let respBody := match e with
                  | Structured err => BodyError err
                  | Opaque _ => BodyString (Error_text e)
                  end in
  (if decide (status = 500%Z) then LogError (Error_text e) [] else ret tt) ;;
  Send status respBody.

Definition TerseErrorHandler : ErrorHandler := fun ctx rw req e =>
  let status := match e with Structured err => Status err | Opaque _ => 500%Z end in
  let respBody : option Body :=
    match e with
    | Structured err =>
        if decide (Status err ≠ 500%Z) then Some (BodyError err) else None
    | Opaque _ => None
    end in
  let respBody := match respBody with
                  | None => BodyString "internal error"
                  | Some b => b
                  end in
  (if decide (status = 500%Z) then LogError (Error_text e) [] else ret tt) ;;
  Send status respBody.

(** ** Slices of middleware *)

(** A Go slice [[]Middleware] is a header - backing array, length,
    capacity - and copying a slice copies the header only: the copies
    share the array. The store holds the backing arrays, each one as the
    list of its cells written so far; the slices of [service.go] all start
    at the first cell of their array. The nil slice has length and
    capacity 0 and its array is never read. *)
Record Slice := mkSlice { sarr : nat; slen : nat; scap : nat }.

Abbreviation Store := (list (list Middleware)).

Definition nil_slice : Slice := mkSlice 0 0 0.

(** The elements [s[0], ..., s[len(s)-1]] of a slice, as the array holds
    them now. *)
Definition elements (st : Store) (s : Slice) : list Middleware :=
  take (slen s) (default [] (st !! sarr s)).

(** Writing cell [i] of an array; [i] is at most the number of cells
    written so far, as [append] writes at the length of a slice. *)
Definition store_cell (i : nat) (m : Middleware) (cells : list Middleware)
    : list Middleware :=
  take i cells ++ m :: drop (S i) cells.

Section Append.

(** The capacity the runtime chooses when a full slice of capacity [c]
    grows by one element; the language only promises that the new array is
    large enough. *)
Variable growth : nat -> nat.

(** The built-in [append(s, m)]: with room left ([len(s) < cap(s)]) the
    element is written in place, into the array that [s] shares with every
    slice copied from it; otherwise the elements are copied to a new array. *)
Definition append (s : Slice) (m : Middleware) (st : Store) : Slice * Store :=
  if decide (slen s < scap s) then
    (mkSlice (sarr s) (S (slen s)) (scap s),
     alter (store_cell (slen s) m) (sarr s) st)
  else
    (mkSlice (length st) (S (slen s)) (Nat.max (growth (scap s)) (S (slen s))),
     st ++ [elements st s ++ [m]]).

End Append.

(** ** Service and Controller (lines 35-64) *)

(** Modelled from the spec: the mux is an external collaborator that
    "registers (method, path-pattern) -> entry point"; [Handle] adds one
    registration. An entry point is a closure; it is given the store as it
    is when the request arrives. *)
Record Route := mkRoute {
  method : string;
  pattern : string;
  handle : Store -> MuxHandlerT
}.

Definition ServeMux : Type := list Route.
Definition Handle (m p : string) (h : Store -> MuxHandlerT) (mux : ServeMux) : ServeMux :=
  mux ++ [mkRoute m p h].

Module Service.
Record t := mk {
  Name : string;
  Mux : ServeMux;
  Middleware : Slice;
  ErrorHandler : option ErrorHandler;   (* [None] is Go's nil *)
  Context : Context
}.
End Service.

Module Controller.
Record t := mk {
  Name : string;
  ErrorHandler : option ErrorHandler;   (* [None] is Go's nil *)
  Middleware : Slice;
  Context : Context
}.
End Controller.

Section Use.

Variable growth : nat -> nat.

(** [Service.Use] and [Controller.Use] (lines 110-112, 204-206):
    [x.Middleware = append(x.Middleware, m)]. *)
Definition Service_Use (service : Service.t) (m : Middleware) (st : Store)
    : Service.t * Store :=
  let (mw, st') := append growth (Service.Middleware service) m st in
  (Service.mk (Service.Name service) (Service.Mux service) mw
              (Service.ErrorHandler service) (Service.Context service),
   st').

Definition Controller_Use (ctrl : Controller.t) (m : Middleware) (st : Store)
    : Controller.t * Store :=
  let (mw, st') := append growth (Controller.Middleware ctrl) m st in
  (Controller.mk (Controller.Name ctrl) (Controller.ErrorHandler ctrl) mw
                 (Controller.Context ctrl),
   st').

End Use.

(** [Service.NewController] (lines 143-151). The service itself is bound
    under [serviceKey]; the binding is kept as a marker in [ctxValues] and
    read back by [ContextService] below. Line 147 copies the slice header:
    the controller shares the array of the service's middleware. *)
Definition NewController (service : Service.t) (resName : string) : Controller.t :=
  let ctx := WithValue (Service.Context service) "service" (Service.Name service) in
  Controller.mk resName (Service.ErrorHandler service)
                (Service.Middleware service) (WithValue ctx "ctrl" resName).

(** ** Request dispatch (lines 208-272) *)

Section Dispatch.

(** The service a controller was created from. [ContextService(ctx)]
    returns the value bound under [serviceKey] at line 144; bindings are
    never changed, so for the request context and every context derived
    from it this is [service]. *)
Variable service : Service.t.

Definition ContextService (ctx : Context) : Service.t := service.

(** [Controller.HandleError] (lines 210-223). *)
Definition HandleError (ctrl : Controller.t) : ErrorHandler :=
  fun ctx rw req err =>
    let status := match err with
                  | Structured e => Status e
                  | Opaque _ => 500%Z
                  end in
    go_IncrCounter ["goa"; "handler"; "error"; Itoa status] ;;
    match Controller.ErrorHandler ctrl with
    | Some h => h ctx rw req err
    | None =>
        match Service.ErrorHandler (ContextService ctx) with
        | Some h => h ctx rw req err
        | None => ret tt
        end
    end.

(** The closure of lines 232-240: the innermost handler of the chain. *)
Definition terminal (ctrl : Controller.t) (hdlr : Handler) : Handler :=
  fun ctx rw req =>
    wr <- Written ;;
    if negb wr then
      r <- hdlr ctx rw req ;;
      match r with
      | Some err =>
          LogInfo "ERROR" [("err", Error_text err)] ;;
          HandleError ctrl ctx rw req err ;;
          ret None
      | None => ret None
      end
    else ret None.

(** The loop of lines 243-245 and 264-266:
    [for i := range chain { h = chain[ml-i-1](h) }]. The index
    [ml-i-1] is in range at every iteration ([wrap_index_in_range]), so
    the branch for an index out of range, where Go panics, is never
    taken. *)
Definition wrap_step (chain : list Middleware) (ml : nat) (h : Handler) (i : nat) : Handler :=
  match chain !! (ml - i - 1) with
  | Some m => m h
  | None => h
  end.

Definition wrap (chain : list Middleware) (h : Handler) : Handler :=
  let ml := length chain in
  foldl (wrap_step chain ml) h (seq 0 ml).

(** The closure of lines 260-263, substituted when decoding failed: it
    calls the field [ctrl.ErrorHandler]; calling a nil function panics. *)
Definition invalid_payload (ctrl : Controller.t) (err : GoError) : Handler :=
  fun ctx rw req =>
    match Controller.ErrorHandler ctrl with
    | Some h => h ctx rw req (ErrInvalidEncoding err)
    | None => panic
    end ;;
    ret None.

(** Lines 252-255: load the body if any. *)
Definition load_body (unm : option Unmarshaler) (ctx : Context) (req : Request)
    : M (option GoError) :=
  if decide (ContentLength req > 0)%Z then
    match unm with
    | Some u => u ctx req
    | None => ret None
    end
  else ret None.

(** [Controller.MuxHandler] (lines 230-272). [st] is the store when
    [MuxHandler] is called: the loop of lines 243-245 reads the elements of
    [chain] then, once. [st'] is the store when a request arrives: the loop
    of lines 264-266 reads the elements of the same slice header again, for
    each request whose body failed to decode. The error returned by the
    chain at line 270 is not used. *)
Definition MuxHandler (st : Store) (ctrl : Controller.t) (name : string)
    (hdlr : Handler) (unm : option Unmarshaler) : Store -> MuxHandlerT :=
  let middleware := terminal ctrl hdlr in
  let chain := Controller.Middleware ctrl in
  let middleware := wrap (elements st chain) middleware in
  let baseCtx := LogWith (Controller.Context ctrl) "action" name in
  fun st' rw req params =>
    ctx <- NewContext baseCtx rw req params ;;
    err <- load_body unm ctx req ;;
    let handler := match err with
                   | None => middleware
                   | Some e => wrap (elements st' chain) (invalid_payload ctrl e)
                   end in
    handler ctx Tracker req ;;
    ret tt.

End Dispatch.

(** ** Serving files (lines 164-199) *)

(** What [ServeFiles] asks of the operating system, of [path/filepath]
    and of [net/http]: [os.Stat] (the error, if any), [os.Getwd],
    [filepath.Abs], [filepath.Rel], [filepath.Join], and the status and
    body with which [http.ServeFile] answers for a file name. *)
Record OS := mkOS {
  os_Stat : string -> option GoError;
  os_Getwd : option string;
  filepath_Abs : string -> option string;
  filepath_Rel : string -> string -> option string;
  filepath_Join : string -> string -> string;
  http_answer : string -> Z * Body
}.

(** [strings.Index] and [strings.Contains]. *)
Definition strings_Index (s substr : string) : Z :=
  match String.index 0 substr s with
  | Some n => Z.of_nat n
  | None => (-1)%Z
  end.

Definition strings_Contains (s substr : string) : bool :=
  bool_decide (0 <= strings_Index s substr)%Z.

(** The slice expression [s[from:]]. *)
Definition slice_from (s : string) (from : nat) : string :=
  String.substring from (String.length s - from) s.

(** [http.ServeFile(ContextResponse(ctx), r.Request, fullpath)] (line
    194): the file handed over is recorded, and the answer is written
    through the tracker, which is the writer it is given. Modelled from the
    spec: the tracker's write operations are declared outside [service.go];
    "all writes go through a single choke point", the one of [Send]. *)
Definition http_ServeFile (os : OS) (fullpath : string) : M unit :=
  fun w =>
    let status := (http_answer os fullpath).1 in
    let body := (http_answer os fullpath).2 in
    Ret tt (add_served fullpath
              (set_response (send_to status body (response w)) w)).

(** Lines 171-178. *)
Definition relative_name (os : OS) (filename : string) : string :=
  match os_Getwd os with
  | Some wd =>
      match filepath_Abs os filename with
      | Some abs =>
          match filepath_Rel os wd abs with
          | Some r => r
          | None => filename
          end
      | None => filename
      end
  | None => filename
  end.

(** Lines 181-184. *)
Definition wildcard_name (path : string) : string :=
  let idx := strings_Index path "*" in
  if decide (idx > -1 /\ idx < Z.of_nat (String.length path) - 1)%Z
  then slice_from path (Z.to_nat (idx + 1))
  else "".

(** The handler of lines 185-196. *)
Definition serve_handler (os : OS) (filename wc : string) : Handler :=
  fun ctx rw req =>
    match ctxRequest ctx with
    | None => panic
    | Some r =>
        fullpath <-
          (if decide (0 < String.length wc) then
             match Params r !! wc with
             | Some (m0 :: _) => ret (filepath_Join os filename m0)
             | Some [] => panic
             | None => ret filename
             end
           else ret filename) ;;
        LogInfo "serve file"
                [("filepath", fullpath); ("path", URLPath (rdRequest r))] ;;
        http_ServeFile os fullpath ;;
        ret None
    end.

(** [Service.ServeFiles]: the error returned (nil is [None]) and the
    service, whose mux the call may have extended. [st] is the store when
    [ServeFiles] is called. *)
Definition ServeFiles (os : OS) (st : Store) (service : Service.t)
    (path filename : string) : M (option GoError * Service.t) :=
  if strings_Contains path ":" then
    ret (Some (Errorf "path may only include wildcards that match the entire end of the URL (e.g. *filepath)"),
         service)
  else
    match os_Stat os filename with
    | Some err => ret (Some (Errorf ("ServeFiles: " +:+ Error_text err)), service)
    | None =>
        let rel := relative_name os filename in
        LogInfo "mount file" [("filepath", rel); ("route", "GET " +:+ path)] ;;
        let ctrl := NewController service "FileServer" in
        let wc := wildcard_name path in
        let handle := MuxHandler service st ctrl "Serve" (serve_handler os filename wc) None in
        ret (None,
             Service.mk (Service.Name service)
                        (Handle "GET" path handle (Service.Mux service))
                        (Service.Middleware service)
                        (Service.ErrorHandler service)
                        (Service.Context service))
    end.

(** [goa.New] (lines 83-98), with the logger starting empty. *)
Definition New (name : string) : Service.t :=
  Service.mk name [] nil_slice (Some DefaultErrorHandler) (mkContext [] [] None).

(** ** Auxiliary definitions for the statements *)

(** Applying a list of middleware from the first to the last, each one
    around the result so far. *)
Definition apply_in_turn (ms : list Middleware) (h : Handler) : Handler :=
  foldl (fun acc m => m acc) h ms.

(** A run of [Send] calls on one tracker. *)
Definition send_all (sends : list (Z * Body)) (r : ResponseData) : ResponseData :=
  foldl (fun acc sb => send_to sb.1 sb.2 acc) r sends.

(** The context and the world in which the entry point of
    [MuxHandler ctrl name _ _] starts working on a request. *)
Definition request_context (ctrl : Controller.t) (name : string) (req : Request)
    (params : gmap string (list string)) : Context :=
  let base := LogWith (Controller.Context ctrl) "action" name in
  mkContext (ctxValues base) (ctxLogWith base) (Some (mkRequestData req params)).

Definition request_world (w : World) : World := set_response fresh_response w.

(** An outcome with its value dropped, as at line 270. *)
Definition discard {A} (o : Outcome A) : Outcome unit :=
  match o with
  | Ret _ w => Ret tt w
  | Panicked w => Panicked w
  end.

(** The error handler [HandleError] selects: the controller's when set,
    otherwise the service's when set, otherwise none. *)
Definition selected_handler (service : Service.t) (ctrl : Controller.t) : ErrorHandler :=
  match Controller.ErrorHandler ctrl with
  | Some h => h
  | None =>
      match Service.ErrorHandler service with
      | Some h => h
      | None => fun _ _ _ _ => ret tt
      end
  end.

(** The status both policies answer with, and the body each one sends,
    following the spec: verbose - "structured errors surface their status
    and full body; any other error becomes status 500 with the error's
    textual message as body"; terse - "structured errors surface their
    status and body unless status is 500, in which case the body is
    replaced by a fixed generic message; all other errors become status 500
    with the same generic message". *)
Definition error_status (err : GoError) : Z :=
  match err with
  | Structured e => Status e
  | Opaque _ => 500%Z
  end.

Definition verbose_body (err : GoError) : Body :=
  match err with
  | Structured e => BodyError e
  | Opaque m => BodyString m
  end.

Definition terse_body (err : GoError) : Body :=
  match err with
  | Structured e =>
      if decide (Status e = 500%Z) then BodyString "internal error"
      else BodyError e
  | Opaque _ => BodyString "internal error"
  end.

(** ** Sample services, handlers and middleware *)

(** Two middleware that log before and after the handler they wrap:
    registered in the order [outer_log], [inner_log], they run in that
    order on the way in and in the reverse order on the way out. *)
Definition outer_log : Middleware := fun next ctx rw req =>
  LogInfo "outer: before" [] ;;
  r <- next ctx rw req ;;
  LogInfo "outer: after" [] ;;
  ret r.
Definition inner_log : Middleware := fun next ctx rw req =>
  LogInfo "inner: before" [] ;;
  r <- next ctx rw req ;;
  LogInfo "inner: after" [] ;;
  ret r.

(** A middleware that answers 401 itself and still calls the next
    handler, and a business handler that panics when it is run. *)
Definition answer_401 : Middleware := fun next ctx rw req =>
  Send 401 (BodyString "unauthorized") ;; next ctx rw req.
Definition exploding : Handler := fun ctx rw req => panic.

(** A middleware that refuses the request with an error of its own, and a
    business handler that succeeds. *)
Definition reject : Middleware := fun next ctx rw req =>
  ret (Some (Opaque "denied")).
Definition succeed : Handler := fun ctx rw req => ret None.

(** A business handler that fails with a structured 404. *)
Definition not_found : Handler := fun ctx rw req =>
  ret (Some (Structured (mkError 404 "no such bottle"))).

(** An unmarshaler that rejects every body, and a middleware that logs the
    request before passing it on. *)
Definition bad_json : Unmarshaler := fun ctx req =>
  ret (Some (Opaque "unexpected end of JSON input")).

(** A controller whose error handler was reset to nil, on a service that
    keeps the verbose one. *)
Definition no_handler (ctrl : Controller.t) : Controller.t :=
  Controller.mk (Controller.Name ctrl) None (Controller.Middleware ctrl)
                (Controller.Context ctrl).

(** An unmarshaler that leaves a trace in the log and accepts the body. *)
Definition noting : Unmarshaler := fun ctx req =>
  LogInfo "decoded" [] ;; ret None.

(** A file system holding the single file [/www/data/index.html]. *)
Definition one_file : OS :=
  mkOS (fun f => if String.eqb f "/www/data/index.html" then None
                 else Some (Opaque ("stat " +:+ f +:+ ": no such file or directory")))
       (Some "/www")
       (fun f => Some f)
       (fun wd abs => None)
       (fun dir f => dir +:+ "/" +:+ f)
       (fun f => (200%Z, BodyString ("contents of " +:+ f))).

(** ** Further definitions for the statements *)

From Stdlib Require Import Ascii.

(** The counter [HandleError] bumps (line 215). *)
Definition counter_key (err : GoError) : list string :=
  ["goa"; "handler"; "error"; Itoa (error_status err)].

(** The characters of a path. *)
Definition chars (s : string) : list Ascii.ascii := String.list_ascii_of_string s.

(** The world after the handler of lines 185-196 served [fullpath] on a
    request not answered yet: the file is logged and handed to
    [http.ServeFile], whose answer is the response. *)
Definition served_world (os : OS) (fullpath : string) (req : Request) (w : World)
    : World :=
  add_served fullpath
    (set_response
       (mkResponseData true
          [((http_answer os fullpath).1, (http_answer os fullpath).2)])
       (add_log (mkLogEntry LevelInfo "serve file"
                   [("filepath", fullpath); ("path", URLPath req)])
          (request_world w))).

(** The innermost handler as lines 232-240 write it, for a business
    handler [hdlr] and the error handling [on_error] of line 236. *)
Definition guarded (hdlr : Handler) (on_error : ErrorHandler) : Handler :=
  fun ctx rw req =>
    wr <- Written ;;
    if negb wr then
      r <- hdlr ctx rw req ;;
      match r with
      | Some err =>
          LogInfo "ERROR" [("err", Error_text err)] ;;
          on_error ctx rw req err ;;
          ret None
      | None => ret None
      end
    else ret None.

(** A slice header that fits the store: within its capacity, and within
    the cells of its array unless it has no array (capacity 0). Every
    slice made by [New], [Use] and [NewController] is of this kind
    ([append_ok]). *)
Definition slice_ok (st : Store) (s : Slice) : Prop :=
  slen s <= scap s
  /\ (scap s = 0
      \/ exists cells, st !! sarr s = Some cells /\ slen s <= length cells).

(** Registering a list of middleware, one [Use] after the other. *)
Definition Service_Use_all (growth : nat -> nat) (service : Service.t)
    (ms : list Middleware) (st : Store) : Service.t * Store :=
  foldl (fun acc m => Service_Use growth acc.1 m acc.2) (service, st) ms.

Definition Controller_Use_all (growth : nat -> nat) (ctrl : Controller.t)
    (cs : list Middleware) (st : Store) : Controller.t * Store :=
  foldl (fun acc m => Controller_Use growth acc.1 m acc.2) (ctrl, st) cs.

(** ** Further sample services and handlers *)

(** A service whose error handler was reset to nil. *)
Definition unhandled : Service.t :=
  Service.mk "cellar" [] nil_slice None (mkContext [] [] None).

(** A business handler that answers 200 and then fails. *)
Definition answer_then_fail : Handler := fun ctx rw req =>
  Send 200 (BodyString "ok") ;; ret (Some (Opaque "late failure")).

(** A file system holding the directory [/www/data/assets]. *)
Definition assets_dir : OS :=
  mkOS (fun f => if String.eqb f "/www/data/assets" then None
                 else Some (Opaque ("stat " +:+ f +:+ ": no such file or directory")))
       (Some "/www")
       (fun f => Some f)
       (fun wd abs => None)
       (fun dir f => dir +:+ "/" +:+ f)
       (fun f => (200%Z, BodyString ("contents of " +:+ f))).

(** A middleware that recovers from the panic of the handler it wraps and
    answers 500, and an unmarshaler that panics. *)
Definition recover : Middleware := fun next ctx rw req w =>
  match next ctx rw req w with
  | Panicked w' => (Send 500 (BodyString "panic") ;; ret None) w'
  | o => o
  end.
Definition panicking : Unmarshaler := fun ctx req => panic.

(** A runtime that doubles the capacity of a full slice. *)
Definition double : nat -> nat := fun c => 2 * c.

(** The controller [bottle] of a new service, with one middleware of its
    own, and the store after its registration. *)
Definition bottle_with (m : Middleware) : Controller.t * Store :=
  Controller_Use double (NewController (New "cellar") "bottle") m [].

(** A business handler that leaves a trace in the log. *)
Definition handled : Handler := fun ctx rw req =>
  LogInfo "handled" [] ;; ret None.

(** A middleware that logs its name and passes the request on. *)
Definition named (n : string) : Middleware := fun next ctx rw req =>
  LogInfo n [] ;; next ctx rw req.

(** A service with the middleware [s1], [s2], [s3], and the store after
    their registration: the third [Use] found the slice full and moved it
    to an array of capacity 4, of which one cell is free. *)
Definition three_used : Service.t * Store :=
  Service_Use_all double (New "cellar") [named "s1"; named "s2"; named "s3"] [].

(** * Properties *)

(** ** Strings *)

Example Index_found : strings_Index "/assets/*filepath" "*" = 8%Z.
Proof. reflexivity. Qed.
Example Index_missing : strings_Index "/index.html" "*" = (-1)%Z.
Proof. reflexivity. Qed.
Example Contains_colon : strings_Contains "/users/:id" ":" = true.
Proof. reflexivity. Qed.
Example wildcard_of_assets : wildcard_name "/assets/*filepath" = "filepath".
Proof. reflexivity. Qed.
Example wildcard_at_end : wildcard_name "/assets/*" = "".
Proof. reflexivity. Qed.
Example Itoa_404 : Itoa 404 = "404".
Proof. reflexivity. Qed.
Example Itoa_neg : Itoa (-5) = "-5".
Proof. reflexivity. Qed.

(** ** The middleware chain *)

Lemma wrap_index_in_range (chain : list Middleware) (i : nat) :
  i < length chain -> is_Some (chain !! (length chain - i - 1)).
Proof. intros Hi. apply lookup_lt_is_Some. lia. Qed.

Lemma wrap_prefix (chain : list Middleware) (h : Handler) (k : nat) :
  k <= length chain ->
  foldl (wrap_step chain (length chain)) h (seq 0 k)
  = apply_in_turn (rev (drop (length chain - k) chain)) h.
Proof.
  induction k as [|k IH]; intros Hk.
  - rewrite Nat.sub_0_r, drop_all. reflexivity.
  - rewrite seq_S, foldl_app, IH by lia. cbn [foldl seq Nat.add].
    unfold wrap_step.
    destruct (wrap_index_in_range chain k) as [m Hm]; [lia|].
    unfold Middleware in *. rewrite Hm.
    replace (length chain - k - 1) with (length chain - S k) in Hm by lia.
    rewrite (drop_S _ _ _ Hm).
    replace (S (length chain - S k)) with (length chain - k) by lia.
    cbn [rev]. unfold apply_in_turn. rewrite foldl_app. reflexivity.
Qed.

Lemma apply_in_turn_rev (ms : list Middleware) (h : Handler) :
  apply_in_turn (rev ms) h = foldr (fun m acc => m acc) h ms.
Proof.
  induction ms as [|m ms IH]; [reflexivity|].
  cbn [rev foldr]. unfold apply_in_turn in *.
  rewrite foldl_app. cbn [foldl]. rewrite IH. reflexivity.
Qed.

Lemma wrap_foldr (chain : list Middleware) (h : Handler) :
  wrap chain h = foldr (fun m acc => m acc) h chain.
Proof.
  unfold wrap. rewrite wrap_prefix by lia.
  rewrite Nat.sub_diag, drop_0. apply apply_in_turn_rev.
Qed.

Lemma wrap_cons (m : Middleware) (chain : list Middleware) (h : Handler) :
  wrap (m :: chain) h = m (wrap chain h).
Proof. rewrite !wrap_foldr. reflexivity. Qed.

Lemma wrap_nil (h : Handler) : wrap [] h = h.
Proof. reflexivity. Qed.

(** C2: the handler built at lines 241-245 (and rebuilt at lines 264-266)
    from the middleware list [m1; ...; mn] and the innermost handler [h] is
    [m1 (m2 (... (mn h)))]: the first middleware registered is the
    outermost layer, the last one wraps [h] directly; and this is the
    handler the entry point runs on the request context, for the elements
    the controller's slice had when [MuxHandler] was called. *)
Theorem C2_chain_order :
  (forall (chain : list Middleware) (h : Handler),
      wrap chain h = foldr (fun m acc => m acc) h chain)
  /\ (forall (m1 m2 m3 : Middleware) (h : Handler),
      wrap [m1; m2; m3] h = m1 (m2 (m3 h)))
  /\ (forall (m : Middleware) (chain : list Middleware) (h : Handler),
      wrap (m :: chain) h = m (wrap chain h))
  /\ (forall (m : Middleware) (chain : list Middleware) (h : Handler),
      wrap (chain ++ [m]) h = wrap chain (m h))
  /\ (forall service st ctrl name hdlr st' rw req params w,
      MuxHandler service st ctrl name hdlr None st' rw req params w
      = (ctx <- NewContext (LogWith (Controller.Context ctrl) "action" name)
                           rw req params ;;
         foldr (fun m acc => m acc) (terminal service ctrl hdlr)
               (elements st (Controller.Middleware ctrl)) ctx Tracker req ;;
         ret tt) w).
Proof.
  split; [exact wrap_foldr|].
  split; [intros; apply wrap_foldr|].
  split; [exact wrap_cons|].
  split.
  - intros m chain h. rewrite !wrap_foldr, foldr_app. reflexivity.
  - intros. unfold MuxHandler, load_body. rewrite wrap_foldr.
    destruct (decide (ContentLength req > 0)%Z); reflexivity.
Qed.

Example chain_runs_in_order :
  logs (world_of
          (wrap [outer_log; inner_log]
                (fun ctx rw req => LogInfo "handler" [] ;; ret None)
                (mkContext [] [] None) Tracker (mkRequest 0 "/")
                (mkWorld (mkResponseData false []) [] [] [])))
  = [mkLogEntry LevelInfo "outer: before" [];
     mkLogEntry LevelInfo "inner: before" [];
     mkLogEntry LevelInfo "handler" [];
     mkLogEntry LevelInfo "inner: after" [];
     mkLogEntry LevelInfo "outer: after" []].
Proof. reflexivity. Qed.

(** ** The response tracker *)

Lemma send_to_written status body r :
  written r = true -> send_to status body r = r.
Proof. unfold send_to. intros ->. reflexivity. Qed.

Lemma send_to_unwritten status body r :
  written r = false ->
  send_to status body r = mkResponseData true (wire r ++ [(status, body)]).
Proof. unfold send_to. intros ->. reflexivity. Qed.

Lemma send_to_marks status body r : written (send_to status body r) = true.
Proof. unfold send_to. destruct (written r) eqn:E; [exact E | reflexivity]. Qed.

Lemma send_to_twice s1 b1 s2 b2 r :
  send_to s2 b2 (send_to s1 b1 r) = send_to s1 b1 r.
Proof. apply send_to_written, send_to_marks. Qed.

Lemma send_all_written sends r : written r = true -> send_all sends r = r.
Proof.
  revert r. induction sends as [|[s b] sends IH]; intros r Hr; [reflexivity|].
  cbn. rewrite send_to_written by exact Hr. apply IH, Hr.
Qed.

Lemma send_all_first s b sends r :
  send_all ((s, b) :: sends) r = send_to s b r.
Proof. cbn. apply send_all_written, send_to_marks. Qed.

(** The outcome of the two policies, written out. *)
Lemma DefaultErrorHandler_structured ctx rw req e w :
  DefaultErrorHandler ctx rw req (Structured e) w
  = Ret tt (set_response (send_to (Status e) (BodyError e) (response w))
              (if decide (Status e = 500%Z)
               then add_log (mkLogEntry LevelError (Message e) []) w
               else w)).
Proof.
  unfold DefaultErrorHandler, bind. cbn.
  destruct (decide (Status e = 500%Z)); reflexivity.
Qed.

Lemma DefaultErrorHandler_opaque ctx rw req m w :
  DefaultErrorHandler ctx rw req (Opaque m) w
  = Ret tt (set_response (send_to 500 (BodyString m) (response w))
              (add_log (mkLogEntry LevelError m []) w)).
Proof. reflexivity. Qed.

Lemma TerseErrorHandler_structured ctx rw req e w :
  TerseErrorHandler ctx rw req (Structured e) w
  = if decide (Status e = 500%Z)
    then Ret tt (set_response
                   (send_to 500 (BodyString "internal error") (response w))
                   (add_log (mkLogEntry LevelError (Message e) []) w))
    else Ret tt (set_response
                   (send_to (Status e) (BodyError e) (response w)) w).
Proof.
  unfold TerseErrorHandler, bind. cbn.
  destruct (decide (Status e = 500%Z)) as [E|E].
  - rewrite E. destruct (decide (500%Z ≠ 500%Z)); [congruence | reflexivity].
  - destruct (decide (Status e ≠ 500%Z)); [reflexivity | contradiction].
Qed.

Lemma TerseErrorHandler_opaque ctx rw req m w :
  TerseErrorHandler ctx rw req (Opaque m) w
  = Ret tt (set_response
              (send_to 500 (BodyString "internal error") (response w))
              (add_log (mkLogEntry LevelError m []) w)).
Proof. reflexivity. Qed.

(** C4: the tracker lets one response through. A second [Send] changes
    nothing ([send(200, A)] then [send(500, B)] leaves [200, A]); after any
    run of [Send] calls on the tracker of a request exactly the first one
    is on the wire; and each error-handler policy changes the response only
    by one call of [Send], so that a request answered by either of them
    ends with exactly one response written. *)
Theorem C4_single_response :
  (forall s1 b1 s2 b2 w, (Send s1 b1 ;; Send s2 b2) w = Send s1 b1 w)
  /\ (forall A B, send_all [(200%Z, A); (500%Z, B)] fresh_response
                  = mkResponseData true [(200%Z, A)])
  /\ (forall sends, length (wire (send_all sends fresh_response)) <= 1)
  /\ (forall sb sends, wire (send_all (sb :: sends) fresh_response) = [sb])
  /\ (forall (policy : ErrorHandler),
        policy = DefaultErrorHandler \/ policy = TerseErrorHandler ->
        forall ctx rw req e w,
          exists status body w',
            policy ctx rw req e w = Ret tt w'
            /\ response w' = send_to status body (response w)
            /\ (response w = fresh_response -> wire (response w') = [(status, body)])).
Proof.
  split.
  { intros. unfold bind, Send. cbn. rewrite send_to_twice. reflexivity. }
  split; [reflexivity|].
  split.
  { intros [|[s b] sends]; [cbn; lia|]. rewrite send_all_first. cbn. lia. }
  split.
  { intros [s b] sends. rewrite send_all_first. reflexivity. }
  intros policy Hp ctx rw req e w.
  destruct Hp as [-> | ->]; destruct e as [e|m].
  - eexists _, _, _. rewrite DefaultErrorHandler_structured.
    split; [reflexivity|]. split; [reflexivity|]. cbn. intros ->. reflexivity.
  - eexists _, _, _. rewrite DefaultErrorHandler_opaque.
    split; [reflexivity|]. split; [reflexivity|]. cbn. intros ->. reflexivity.
  - rewrite TerseErrorHandler_structured.
    destruct (decide (Status e = 500%Z)); eexists _, _, _;
      (split; [reflexivity|]; split; [reflexivity|]; cbn; intros ->; reflexivity).
  - eexists _, _, _. rewrite TerseErrorHandler_opaque.
    split; [reflexivity|]. split; [reflexivity|]. cbn. intros ->. reflexivity.
Qed.

Lemma C4_single_response_witness :
  exists status body w',
    TerseErrorHandler (mkContext [] [] None) Tracker (mkRequest 0 "/")
                      (Opaque "boom") (mkWorld fresh_response [] [] [])
    = Ret tt w'
    /\ response w' = send_to status body fresh_response
    /\ (fresh_response = fresh_response -> wire (response w') = [(status, body)]).
Proof.
  exact (proj2 (proj2 (proj2 (proj2 C4_single_response)))
           TerseErrorHandler (or_intror eq_refl)
           (mkContext [] [] None) Tracker (mkRequest 0 "/")
           (Opaque "boom") (mkWorld fresh_response [] [] [])).
Defined.

(** C6: the terse policy. A structured error whose status is not 500 is
    sent with its status and itself as body, and nothing is logged; a
    structured error of status 500 and every other error are logged and
    sent as status 500 with the fixed body ["internal error"]. On a
    request not answered yet, what is sent is the response. *)
Theorem C6_terse_policy ctx rw req w :
  (forall e, Status e ≠ 500%Z ->
     TerseErrorHandler ctx rw req (Structured e) w
     = Send (Status e) (BodyError e) w)
  /\ (forall e, Status e = 500%Z ->
     TerseErrorHandler ctx rw req (Structured e) w
     = (LogError (Message e) [] ;;
        Send 500 (BodyString "internal error")) w)
  /\ (forall m,
     TerseErrorHandler ctx rw req (Opaque m) w
     = (LogError m [] ;; Send 500 (BodyString "internal error")) w)
  /\ (written (response w) = false ->
     forall e, exists w',
       TerseErrorHandler ctx rw req e w = Ret tt w'
       /\ wire (response w')
          = wire (response w) ++ [(error_status e, terse_body e)]).
Proof.
  split; [|split; [|split]].
  - intros e He. rewrite TerseErrorHandler_structured.
    destruct (decide (Status e = 500%Z)); [contradiction | reflexivity].
  - intros e He. rewrite TerseErrorHandler_structured.
    destruct (decide (Status e = 500%Z)); [reflexivity | contradiction].
  - intros m. apply TerseErrorHandler_opaque.
  - intros Hw [e|m].
    + rewrite TerseErrorHandler_structured. unfold terse_body, error_status.
      destruct (decide (Status e = 500%Z)) as [He|He]; eexists;
        (split; [reflexivity|]); cbn; rewrite send_to_unwritten by exact Hw;
        cbn; rewrite ?He; reflexivity.
    + rewrite TerseErrorHandler_opaque. eexists. split; [reflexivity|].
      cbn. rewrite send_to_unwritten by exact Hw. reflexivity.
Qed.

Lemma C6_terse_policy_witness :
  (TerseErrorHandler (mkContext [] [] None) Tracker (mkRequest 0 "/")
                     (Structured (mkError 403 "forbidden"))
                     (mkWorld fresh_response [] [] [])
   = Ret tt (mkWorld (mkResponseData true
                        [(403%Z, BodyError (mkError 403 "forbidden"))])
                     [] [] []))
  /\ (TerseErrorHandler (mkContext [] [] None) Tracker (mkRequest 0 "/")
                        (Structured (mkError 500 "db password rejected"))
                        (mkWorld fresh_response [] [] [])
      = Ret tt (mkWorld (mkResponseData true [(500%Z, BodyString "internal error")])
                        [mkLogEntry LevelError "db password rejected" []] [] []))
  /\ (exists w',
        TerseErrorHandler (mkContext [] [] None) Tracker (mkRequest 0 "/")
                          (Opaque "disk full") (mkWorld fresh_response [] [] [])
        = Ret tt w'
        /\ wire (response w')
           = wire (response (mkWorld fresh_response [] [] []))
             ++ [(error_status (Opaque "disk full"), terse_body (Opaque "disk full"))]).
Proof.
  pose proof (C6_terse_policy (mkContext [] [] None) Tracker (mkRequest 0 "/")
                (mkWorld fresh_response [] [] [])) as [Hs [H500 [_ Hfresh]]].
  split; [|split].
  - refine (Hs (mkError 403 "forbidden") _). cbn. lia.
  - exact (H500 (mkError 500 "db password rejected") eq_refl).
  - exact (Hfresh eq_refl (Opaque "disk full")).
Defined.

(** C7: the verbose policy. A structured error is sent with its status
    and itself as body, logged when the status is 500; every other error
    is logged and sent as status 500 with its text as body. A structured
    error of status 404 is sent as 404 with the structured body by both
    policies. On a request not answered yet, what is sent is the
    response. *)
Theorem C7_verbose_policy ctx rw req w :
  (forall e, Status e ≠ 500%Z ->
     DefaultErrorHandler ctx rw req (Structured e) w
     = Send (Status e) (BodyError e) w)
  /\ (forall e, Status e = 500%Z ->
     DefaultErrorHandler ctx rw req (Structured e) w
     = (LogError (Message e) [] ;; Send 500 (BodyError e)) w)
  /\ (forall m,
     DefaultErrorHandler ctx rw req (Opaque m) w
     = (LogError m [] ;; Send 500 (BodyString m)) w)
  /\ (forall e, Status e = 404%Z ->
     DefaultErrorHandler ctx rw req (Structured e) w = Send 404 (BodyError e) w
     /\ TerseErrorHandler ctx rw req (Structured e) w = Send 404 (BodyError e) w)
  /\ (written (response w) = false ->
     forall e, exists w',
       DefaultErrorHandler ctx rw req e w = Ret tt w'
       /\ wire (response w')
          = wire (response w) ++ [(error_status e, verbose_body e)]).
Proof.
  split; [|split; [|split; [|split]]].
  - intros e He. rewrite DefaultErrorHandler_structured.
    destruct (decide (Status e = 500%Z)); [contradiction | reflexivity].
  - intros e He. rewrite DefaultErrorHandler_structured.
    destruct (decide (Status e = 500%Z)); [|contradiction].
    rewrite He. reflexivity.
  - intros m. apply DefaultErrorHandler_opaque.
  - intros e He. split.
    + rewrite DefaultErrorHandler_structured.
      destruct (decide (Status e = 500%Z)); [lia|]. rewrite He. reflexivity.
    + rewrite TerseErrorHandler_structured.
      destruct (decide (Status e = 500%Z)); [lia|]. rewrite He. reflexivity.
  - intros Hw [e|m].
    + rewrite DefaultErrorHandler_structured. eexists. split; [reflexivity|].
      cbn. rewrite send_to_unwritten; [reflexivity|].
      destruct (decide (Status e = 500%Z)); exact Hw.
    + rewrite DefaultErrorHandler_opaque. eexists. split; [reflexivity|].
      cbn. rewrite send_to_unwritten by exact Hw. reflexivity.
Qed.

Lemma C7_verbose_policy_witness :
  (DefaultErrorHandler (mkContext [] [] None) Tracker (mkRequest 0 "/")
                       (Structured (mkError 404 "no such bottle"))
                       (mkWorld fresh_response [] [] [])
   = Ret tt (mkWorld (mkResponseData true
                        [(404%Z, BodyError (mkError 404 "no such bottle"))])
                     [] [] []))
  /\ (TerseErrorHandler (mkContext [] [] None) Tracker (mkRequest 0 "/")
                        (Structured (mkError 404 "no such bottle"))
                        (mkWorld fresh_response [] [] [])
      = Ret tt (mkWorld (mkResponseData true
                           [(404%Z, BodyError (mkError 404 "no such bottle"))])
                        [] [] []))
  /\ (DefaultErrorHandler (mkContext [] [] None) Tracker (mkRequest 0 "/")
                          (Structured (mkError 500 "db password rejected"))
                          (mkWorld fresh_response [] [] [])
      = Ret tt (mkWorld (mkResponseData true
                           [(500%Z, BodyError (mkError 500 "db password rejected"))])
                        [mkLogEntry LevelError "db password rejected" []] [] []))
  /\ (exists w',
        DefaultErrorHandler (mkContext [] [] None) Tracker (mkRequest 0 "/")
                            (Opaque "disk full") (mkWorld fresh_response [] [] [])
        = Ret tt w'
        /\ wire (response w')
           = wire (response (mkWorld fresh_response [] [] []))
             ++ [(error_status (Opaque "disk full"), verbose_body (Opaque "disk full"))]).
Proof.
  pose proof (C7_verbose_policy (mkContext [] [] None) Tracker (mkRequest 0 "/")
                (mkWorld fresh_response [] [] []))
    as [_ [H500 [_ [H404 Hfresh]]]].
  split; [|split; [|split]].
  - exact (proj1 (H404 (mkError 404 "no such bottle") eq_refl)).
  - exact (proj2 (H404 (mkError 404 "no such bottle") eq_refl)).
  - exact (H500 (mkError 500 "db password rejected") eq_refl).
  - exact (Hfresh eq_refl (Opaque "disk full")).
Defined.

(** ** Dispatch *)

Lemma MuxHandler_no_decoding service st ctrl name hdlr unm st' rw req params w :
  ~ ((ContentLength req > 0)%Z /\ is_Some unm) ->
  MuxHandler service st ctrl name hdlr unm st' rw req params w
  = discard (wrap (elements st (Controller.Middleware ctrl))
               (terminal service ctrl hdlr)
               (request_context ctrl name req params) Tracker req
               (request_world w)).
Proof.
  intros Hno. unfold MuxHandler, load_body, bind, NewContext. cbn.
  fold (request_context ctrl name req params). fold (request_world w).
  destruct (decide (ContentLength req > 0)%Z) as [Hpos|Hpos].
  - destruct unm as [u|]; [exfalso; apply Hno; split; [exact Hpos | eexists; reflexivity]|].
    cbn. destruct (wrap _ _ _ _ _ _); reflexivity.
  - cbn. destruct (wrap _ _ _ _ _ _); reflexivity.
Qed.

Lemma MuxHandler_decoding service st ctrl name hdlr u st' rw req params w :
  (ContentLength req > 0)%Z ->
  MuxHandler service st ctrl name hdlr (Some u) st' rw req params w
  = match u (request_context ctrl name req params) req (request_world w) with
    | Ret None w1 =>
        discard (wrap (elements st (Controller.Middleware ctrl))
                   (terminal service ctrl hdlr)
                   (request_context ctrl name req params) Tracker req w1)
    | Ret (Some err) w1 =>
        discard (wrap (elements st' (Controller.Middleware ctrl))
                   (invalid_payload ctrl err)
                   (request_context ctrl name req params) Tracker req w1)
    | Panicked w1 => Panicked w1
    end.
Proof.
  intros Hpos. unfold MuxHandler, load_body, bind, NewContext. cbn.
  fold (request_context ctrl name req params). fold (request_world w).
  destruct (decide (ContentLength req > 0)%Z); [|contradiction].
  destruct (u _ _ _) as [[err|] w1|w1]; [| |reflexivity].
  - destruct (wrap _ _ _ _ _ _); reflexivity.
  - destruct (wrap _ _ _ _ _ _); reflexivity.
Qed.

Lemma load_body_no_decoding unm ctx req w :
  ~ ((ContentLength req > 0)%Z /\ is_Some unm) ->
  load_body unm ctx req w = Ret None w.
Proof.
  intros Hno. unfold load_body.
  destruct (decide (ContentLength req > 0)%Z) as [Hpos|]; [|reflexivity].
  destruct unm as [u|]; [|reflexivity].
  exfalso. apply Hno. split; [exact Hpos | eexists; reflexivity].
Qed.

Lemma load_body_decoding u ctx req w :
  (ContentLength req > 0)%Z -> load_body (Some u) ctx req w = u ctx req w.
Proof.
  intros Hpos. unfold load_body.
  destruct (decide (ContentLength req > 0)%Z); [reflexivity | contradiction].
Qed.

(** C5: the innermost handler reads the tracker's written flag first. When
    a response was already written it returns nil at once, whatever the
    business handler is; otherwise the business handler is what runs
    next. *)
Theorem C5_written_skips_handler service ctrl hdlr ctx rw req w :
  (written (response w) = true ->
     terminal service ctrl hdlr ctx rw req w = Ret None w)
  /\ (written (response w) = false ->
     terminal service ctrl hdlr ctx rw req w
     = (r <- hdlr ctx rw req ;;
        match r with
        | Some err =>
            LogInfo "ERROR" [("err", Error_text err)] ;;
            HandleError service ctrl ctx rw req err ;;
            ret None
        | None => ret None
        end) w).
Proof.
  split; intros Hw; unfold terminal, bind at 1, Written; rewrite Hw; reflexivity.
Qed.

Lemma C5_written_skips_handler_witness :
  let service := New "cellar" in
  let ctrl := (bottle_with answer_401).1 in
  let st := (bottle_with answer_401).2 in
  let w401 := mkWorld (mkResponseData true [(401%Z, BodyString "unauthorized")])
                      [] [] [] in
  terminal service ctrl exploding (request_context ctrl "show" (mkRequest 0 "/") ∅)
           Tracker (mkRequest 0 "/") w401 = Ret None w401
  /\ terminal service ctrl exploding (request_context ctrl "show" (mkRequest 0 "/") ∅)
              Tracker (mkRequest 0 "/") (mkWorld fresh_response [] [] [])
     = Panicked (mkWorld fresh_response [] [] [])
  /\ MuxHandler service st ctrl "show" exploding None st RawWriter
                (mkRequest 0 "/") ∅ (mkWorld fresh_response [] [] [])
     = Ret tt w401.
Proof.
  intros service ctrl st w401. split; [|split].
  - exact (proj1 (C5_written_skips_handler service ctrl exploding
                    (request_context ctrl "show" (mkRequest 0 "/") ∅)
                    Tracker (mkRequest 0 "/") w401) eq_refl).
  - exact (proj2 (C5_written_skips_handler service ctrl exploding
                    (request_context ctrl "show" (mkRequest 0 "/") ∅)
                    Tracker (mkRequest 0 "/") (mkWorld fresh_response [] [] []))
             eq_refl).
  - reflexivity.
Defined.

Lemma HandleError_selected service ctrl ctx rw req err w :
  HandleError service ctrl ctx rw req err w
  = selected_handler service ctrl ctx rw req err
      (add_spawned ["goa"; "handler"; "error"; Itoa (error_status err)] w).
Proof.
  unfold HandleError, selected_handler, ContextService, bind, go_IncrCounter.
  destruct err; cbn;
    destruct (Controller.ErrorHandler ctrl);
    try destruct (Service.ErrorHandler service); reflexivity.
Qed.

(** C1, as stated, fails for an error returned by a middleware: the chain
    returns the error to the entry point, which drops it. With the verbose
    error handler installed on the service and on the controller, nothing
    is sent, logged or counted, whereas [HandleError] on that error would
    have answered 500. *)
Lemma C1_counterexample :
  let service := New "cellar" in
  let ctrl := (bottle_with reject).1 in
  let st := (bottle_with reject).2 in
  let req := mkRequest 0 "/bottles/1" in
  let w := mkWorld fresh_response [] [] [] in
  let ctx := request_context ctrl "show" req ∅ in
  Controller.ErrorHandler ctrl = Some DefaultErrorHandler
  /\ wrap (elements st (Controller.Middleware ctrl)) (terminal service ctrl succeed)
          ctx Tracker req w = Ret (Some (Opaque "denied")) w
  /\ MuxHandler service st ctrl "show" succeed None st RawWriter req ∅ w = Ret tt w
  /\ HandleError service ctrl ctx Tracker req (Opaque "denied") w
     = Ret tt (mkWorld (mkResponseData true [(500%Z, BodyString "denied")])
                       [mkLogEntry LevelError "denied" []]
                       [["goa"; "handler"; "error"; "500"]] [])
  /\ ~ (exists w', MuxHandler service st ctrl "show" succeed None st RawWriter req ∅ w
                   = Ret tt w'
                   /\ written (response w') = true).
Proof.
  cbv zeta. repeat split.
  intros [w' [Hrun Hwritten]].
  assert (Hw' : w' = mkWorld fresh_response [] [] []).
  { change (Ret tt (mkWorld fresh_response [] [] []) = Ret tt w') in Hrun.
    congruence. }
  rewrite Hw' in Hwritten. discriminate Hwritten.
Qed.

(** C1, amended: an error returned by the business handler is logged and
    handed to one error handler, the one [HandleError] selects (the
    controller's when set, otherwise the service's when set), after which
    the innermost handler returns nil; the dispatch adds no panic of its
    own. What the chain returns to the entry point, be it nil or an error
    of a middleware, is dropped there, on every path of the entry point. *)
Theorem C1_handler_error_dispatch service st ctrl name hdlr st' rw req params w :
  (forall ctx rw' w0 err w1,
     written (response w0) = false ->
     hdlr ctx rw' req w0 = Ret (Some err) w1 ->
     terminal service ctrl hdlr ctx rw' req w0
     = (selected_handler service ctrl ctx rw' req err ;; ret None)
         (add_spawned ["goa"; "handler"; "error"; Itoa (error_status err)]
            (add_log (mkLogEntry LevelInfo "ERROR" [("err", Error_text err)]) w1)))
  /\ MuxHandler service st ctrl name hdlr None st' rw req params w
     = discard (wrap (elements st (Controller.Middleware ctrl))
                  (terminal service ctrl hdlr)
                  (request_context ctrl name req params) Tracker req
                  (request_world w))
  /\ (forall unm,
      MuxHandler service st ctrl name hdlr unm st' rw req params w
      = match load_body unm (request_context ctrl name req params) req
                (request_world w) with
        | Ret None w1 =>
            discard (wrap (elements st (Controller.Middleware ctrl))
                       (terminal service ctrl hdlr)
                       (request_context ctrl name req params) Tracker req w1)
        | Ret (Some err) w1 =>
            discard (wrap (elements st' (Controller.Middleware ctrl))
                       (invalid_payload ctrl err)
                       (request_context ctrl name req params) Tracker req w1)
        | Panicked w1 => Panicked w1
        end).
Proof.
  split; [|split].
  - intros ctx rw' w0 err w1 Hw Hh.
    unfold terminal, bind at 1, Written. rewrite Hw. cbn [negb].
    unfold bind at 1. rewrite Hh.
    unfold bind at 1, LogInfo. unfold bind at 1.
    rewrite HandleError_selected. reflexivity.
  - apply MuxHandler_no_decoding. intros [_ [u Hu]]. discriminate Hu.
  - intros unm.
    destruct (decide ((ContentLength req > 0)%Z /\ is_Some unm))
      as [[Hpos [u ->]]|Hno].
    + rewrite MuxHandler_decoding, load_body_decoding by exact Hpos.
      reflexivity.
    + rewrite MuxHandler_no_decoding, load_body_no_decoding by exact Hno.
      reflexivity.
Qed.

Lemma C1_handler_error_dispatch_witness :
  let service := New "cellar" in
  let ctrl := NewController service "bottle" in
  let req := mkRequest 0 "/bottles/7" in
  let w := mkWorld fresh_response [] [] [] in
  terminal service ctrl not_found (request_context ctrl "show" req ∅) Tracker req w
  = Ret None
      (mkWorld (mkResponseData true [(404%Z, BodyError (mkError 404 "no such bottle"))])
               [mkLogEntry LevelInfo "ERROR" [("err", "no such bottle")]]
               [["goa"; "handler"; "error"; "404"]] []).
Proof.
  intros service ctrl req w.
  exact (proj1 (C1_handler_error_dispatch service [] ctrl "show" not_found []
                  RawWriter req ∅ w)
           (request_context ctrl "show" req ∅) Tracker w
           (Structured (mkError 404 "no such bottle")) w eq_refl eq_refl).
Defined.

(** ** Payload decoding *)

Lemma invalid_payload_set ctrl err ctx rw req w h :
  Controller.ErrorHandler ctrl = Some h ->
  invalid_payload ctrl err ctx rw req w
  = (h ctx rw req (ErrInvalidEncoding err) ;; ret None) w.
Proof. unfold invalid_payload. intros ->. reflexivity. Qed.

Lemma invalid_payload_nil ctrl err ctx rw req w :
  Controller.ErrorHandler ctrl = None ->
  invalid_payload ctrl err ctx rw req w = Panicked w.
Proof. unfold invalid_payload. intros ->. reflexivity. Qed.



(** The chain of a decoding failure after another [Use] wrote the shared
    array: the controller registers [x] in the free cell of the service's
    array and [MuxHandler] is called; the service then registers [s4] in
    the same cell. A request that decodes runs [s1; s2; s3; x], one whose
    body fails to decode runs [s1; s2; s3; s4]. *)
Example decode_failure_chain_after_overwrite :
  let service := three_used.1 in
  let cu := Controller_Use double (NewController service "bottle") (named "x")
                           three_used.2 in
  let su := Service_Use double service (named "s4") cu.2 in
  let entry := MuxHandler service cu.2 cu.1 "create" succeed (Some bad_json) in
  msg <$> logs (world_of (entry su.2 RawWriter (mkRequest 0 "/bottles") ∅
                                (mkWorld fresh_response [] [] [])))
  = ["s1"; "s2"; "s3"; "x"]
  /\ msg <$> logs (world_of (entry su.2 RawWriter (mkRequest 12 "/bottles") ∅
                                   (mkWorld fresh_response [] [] [])))
     = ["s1"; "s2"; "s3"; "s4"].
Proof. split; reflexivity. Qed.

(** C8: the handler substituted after a decoding failure calls the field
    [ctrl.ErrorHandler] and nothing else. When the field is nil it panics,
    whatever the service's error handler is, and so does the entry point
    when no middleware stands in between; [HandleError] in the same
    situation calls the service's error handler. *)
Theorem C8_invalid_payload_no_fallback service ctrl :
  (forall h err ctx rw req w,
      Controller.ErrorHandler ctrl = Some h ->
      invalid_payload ctrl err ctx rw req w
      = (h ctx rw req (ErrInvalidEncoding err) ;; ret None) w)
  /\ (Controller.ErrorHandler ctrl = None ->
      (forall err ctx rw req w,
          invalid_payload ctrl err ctx rw req w = Panicked w)
      /\ (forall st name hdlr u st' rw req params w err w1,
          elements st' (Controller.Middleware ctrl) = [] ->
          (ContentLength req > 0)%Z ->
          u (request_context ctrl name req params) req (request_world w)
            = Ret (Some err) w1 ->
          MuxHandler service st ctrl name hdlr (Some u) st' rw req params w
          = Panicked w1)
      /\ (forall h ctx rw req err w,
          Service.ErrorHandler service = Some h ->
          HandleError service ctrl ctx rw req err w
          = h ctx rw req err
              (add_spawned ["goa"; "handler"; "error"; Itoa (error_status err)] w))).
Proof.
  split.
  - intros h err ctx rw req w Heh. apply invalid_payload_set, Heh.
  - intros Hnil. split; [|split].
    + intros. apply invalid_payload_nil, Hnil.
    + intros st name hdlr u st' rw req params w err w1 Hchain Hpos Hu.
      rewrite MuxHandler_decoding by exact Hpos. rewrite Hu, Hchain, wrap_nil.
      rewrite invalid_payload_nil by exact Hnil. reflexivity.
    + intros h ctx rw req err w Hsvc.
      rewrite HandleError_selected. unfold selected_handler.
      rewrite Hnil, Hsvc. reflexivity.
Qed.

Lemma C8_invalid_payload_no_fallback_witness :
  let service := New "cellar" in
  let ctrl := no_handler (NewController service "bottle") in
  let req := mkRequest 12 "/bottles" in
  let w := mkWorld fresh_response [] [] [] in
  MuxHandler service [] ctrl "create" succeed (Some bad_json) [] RawWriter req ∅ w
    = Panicked w
  /\ HandleError service ctrl (request_context ctrl "create" req ∅) Tracker req
                 (Opaque "unexpected end of JSON input") w
     = Ret tt
         (mkWorld
            (mkResponseData true
               [(500%Z, BodyString "unexpected end of JSON input")])
            [mkLogEntry LevelError "unexpected end of JSON input" []]
            [["goa"; "handler"; "error"; "500"]] []).
Proof.
  intros service ctrl req w.
  pose proof (proj2 (C8_invalid_payload_no_fallback service ctrl) eq_refl)
    as [_ [Hmux Hfall]].
  split.
  - exact (Hmux [] "create" succeed bad_json [] RawWriter req ∅ w
             (Opaque "unexpected end of JSON input") w eq_refl eq_refl eq_refl).
  - exact (Hfall DefaultErrorHandler (request_context ctrl "create" req ∅)
             Tracker req (Opaque "unexpected end of JSON input") w eq_refl).
Defined.

(** C9: the unmarshaler runs exactly when [ContentLength > 0] and an
    unmarshaler was supplied. In that case loading the body is the
    unmarshaler's run on the request context, and the entry point goes on
    from the world the unmarshaler left. Otherwise nothing is decoded: the
    entry point runs the chain around the innermost handler of lines
    232-240, which calls the business handler on a request not answered
    yet, and with no middleware the business handler is the first thing
    to run, on the request context and the world of the request as it
    arrived. This is so for every request whose [ContentLength] is not
    positive. *)
Theorem C9_unmarshaler_invoked_iff service st ctrl name hdlr unm st' rw req params w :
  (forall u,
      unm = Some u -> (ContentLength req > 0)%Z ->
      (forall ctx w0, load_body unm ctx req w0 = u ctx req w0)
      /\ MuxHandler service st ctrl name hdlr unm st' rw req params w
         = match u (request_context ctrl name req params) req (request_world w) with
           | Ret None w1 =>
               discard (wrap (elements st (Controller.Middleware ctrl))
                          (guarded hdlr (HandleError service ctrl))
                          (request_context ctrl name req params) Tracker req w1)
           | Ret (Some err) w1 =>
               discard (wrap (elements st' (Controller.Middleware ctrl))
                          (invalid_payload ctrl err)
                          (request_context ctrl name req params) Tracker req w1)
           | Panicked w1 => Panicked w1
           end)
  /\ (~ ((ContentLength req > 0)%Z /\ is_Some unm) ->
      (forall ctx w0, load_body unm ctx req w0 = Ret None w0)
      /\ MuxHandler service st ctrl name hdlr unm st' rw req params w
         = discard (wrap (elements st (Controller.Middleware ctrl))
                      (guarded hdlr (HandleError service ctrl))
                      (request_context ctrl name req params) Tracker req
                      (request_world w))
      /\ (elements st (Controller.Middleware ctrl) = [] ->
          MuxHandler service st ctrl name hdlr unm st' rw req params w
          = discard
              ((r <- hdlr (request_context ctrl name req params) Tracker req ;;
                match r with
                | Some err =>
                    LogInfo "ERROR" [("err", Error_text err)] ;;
                    HandleError service ctrl
                                (request_context ctrl name req params) Tracker req err ;;
                    ret (@None GoError)
                | None => ret (@None GoError)
                end) (request_world w)))).
Proof.
  split.
  - intros u -> Hpos. split.
    + intros ctx w0. apply load_body_decoding, Hpos.
    + apply MuxHandler_decoding, Hpos.
  - intros Hno. split; [|split].
    + intros ctx w0. apply load_body_no_decoding, Hno.
    + apply MuxHandler_no_decoding, Hno.
    + intros Hchain. rewrite MuxHandler_no_decoding by exact Hno.
      rewrite Hchain, wrap_nil. reflexivity.
Qed.

Lemma chunked_not_positive :
  ~ ((ContentLength (mkRequest (-1) "/bottles") > 0)%Z /\ is_Some (Some noting)).
Proof. intros [Hpos _]. discriminate Hpos. Qed.

Lemma C9_unmarshaler_invoked_iff_witness :
  let service := New "cellar" in
  let ctrl := NewController service "bottle" in
  let w := mkWorld fresh_response [] [] [] in
  (* a body of known length is decoded, then the business handler runs *)
  MuxHandler service [] ctrl "create" handled (Some noting) [] RawWriter
             (mkRequest 12 "/bottles") ∅ w
  = Ret tt (mkWorld fresh_response
                    [mkLogEntry LevelInfo "decoded" [];
                     mkLogEntry LevelInfo "handled" []] [] [])
  (* a chunked body (length -1) is not: the business handler runs alone *)
  /\ load_body (Some noting)
               (request_context ctrl "create" (mkRequest (-1) "/bottles") ∅)
               (mkRequest (-1) "/bottles") w
     = Ret None w
  /\ MuxHandler service [] ctrl "create" handled (Some noting) [] RawWriter
                (mkRequest (-1) "/bottles") ∅ w
     = Ret tt (mkWorld fresh_response [mkLogEntry LevelInfo "handled" []] [] []).
Proof.
  intros service ctrl w.
  pose proof (proj1 (C9_unmarshaler_invoked_iff service [] ctrl "create" handled
                       (Some noting) [] RawWriter (mkRequest 12 "/bottles") ∅ w)
                noting eq_refl eq_refl) as [_ Hmux].
  pose proof (proj2 (C9_unmarshaler_invoked_iff service [] ctrl "create" handled
                       (Some noting) [] RawWriter (mkRequest (-1) "/bottles") ∅ w)
                chunked_not_positive) as [Hskip [_ Hdirect]].
  split; [|split].
  - exact Hmux.
  - exact (Hskip _ w).
  - exact (Hdirect eq_refl).
Defined.

(** ** Serving files *)

(** C10: [ServeFiles] returns an error and leaves the service, hence its
    mux, as it was when the path contains [":"] or when [os.Stat] fails on
    the file name (as it does for a file that does not exist); otherwise it
    returns nil and the mux has exactly one more route, for [GET] and the
    path. *)
Theorem C10_ServeFiles os st service path filename w :
  (strings_Contains path ":" = true \/ is_Some (os_Stat os filename) ->
     exists err, ServeFiles os st service path filename w = Ret (Some err, service) w)
  /\ (strings_Contains path ":" = false -> os_Stat os filename = None ->
     exists service' w',
       ServeFiles os st service path filename w = Ret (None, service') w'
       /\ Service.Mux service'
          = Service.Mux service
            ++ [mkRoute "GET" path
                  (MuxHandler service st (NewController service "FileServer") "Serve"
                     (serve_handler os filename (wildcard_name path)) None)]
       /\ length (Service.Mux service') = S (length (Service.Mux service))).
Proof.
  split.
  - intros Hbad. unfold ServeFiles.
    destruct (strings_Contains path ":") eqn:Hc; [eexists; reflexivity|].
    destruct Hbad as [Hbad | [e He]]; [discriminate Hbad|].
    rewrite He. eexists; reflexivity.
  - intros Hc Hstat. unfold ServeFiles. rewrite Hc, Hstat.
    eexists _, _. split; [reflexivity|]. cbn [Service.Mux]. unfold Handle.
    split; [reflexivity|]. rewrite length_app. cbn. lia.
Qed.

Lemma C10_ServeFiles_witness :
  let w := mkWorld fresh_response [] [] [] in
  (exists err, ServeFiles one_file [] (New "cellar") "/users/:id" "/www/data/index.html" w
               = Ret (Some err, New "cellar") w)
  /\ (exists err, ServeFiles one_file [] (New "cellar") "/index.html" "/www/data/missing.html" w
                  = Ret (Some err, New "cellar") w)
  /\ (exists service' w',
        ServeFiles one_file [] (New "cellar") "/index.html" "/www/data/index.html" w
        = Ret (None, service') w'
        /\ Service.Mux service'
           = Service.Mux (New "cellar")
             ++ [mkRoute "GET" "/index.html"
                   (MuxHandler (New "cellar") [] (NewController (New "cellar") "FileServer")
                      "Serve"
                      (serve_handler one_file "/www/data/index.html"
                         (wildcard_name "/index.html")) None)]
        /\ length (Service.Mux service') = S (length (Service.Mux (New "cellar")))).
Proof.
  intros w. split; [|split].
  - exact (proj1 (C10_ServeFiles one_file [] (New "cellar") "/users/:id"
                    "/www/data/index.html" w) (or_introl eq_refl)).
  - exact (proj1 (C10_ServeFiles one_file [] (New "cellar") "/index.html"
                    "/www/data/missing.html" w)
             (or_intror (ex_intro _ _ eq_refl))).
  - exact (proj2 (C10_ServeFiles one_file [] (New "cellar") "/index.html"
                    "/www/data/index.html" w) eq_refl eq_refl).
Defined.

(** * Further properties of [service.go] *)

(** ** Paths *)

Lemma append_empty (s : string) : "" +:+ s = s.
Proof. reflexivity. Qed.

Lemma append_String (b : Ascii.ascii) (s t : string) :
  String b s +:+ t = String b (s +:+ t).
Proof. reflexivity. Qed.

Lemma prefix_empty (s : string) : String.prefix "" s = true.
Proof. destruct s; reflexivity. Qed.

Lemma index_char_append (c : Ascii.ascii) (pre rest : string) :
  c ∉ chars pre ->
  String.index 0 (String c EmptyString) (pre +:+ String c rest)
  = Some (String.length pre).
Proof.
  induction pre as [|b pre IH]; intros Hc.
  - rewrite append_empty. cbn.
    destruct (Ascii.ascii_dec c c); [|contradiction].
    rewrite prefix_empty. reflexivity.
  - assert (Hb : c <> b) by (intros ->; apply Hc; left).
    assert (Hpre : c ∉ chars pre) by (intros Hin; apply Hc; right; exact Hin).
    rewrite append_String. cbn. destruct (Ascii.ascii_dec c b); [contradiction|].
    rewrite (IH Hpre). reflexivity.
Qed.

Lemma index_char_None (c : Ascii.ascii) (s : string) :
  String.index 0 (String c EmptyString) s = None <-> c ∉ chars s.
Proof.
  induction s as [|b s IH].
  - cbn. split; [intros _ Hin; inversion Hin | reflexivity].
  - cbn. destruct (Ascii.ascii_dec c b) as [->|Hb].
    + rewrite prefix_empty.
      split; [discriminate | intros Hc; exfalso; apply Hc; left].
    + destruct (String.index 0 (String c EmptyString) s) eqn:E.
      * split; [discriminate|]. intros Hc. exfalso.
        destruct IH as [_ IH]. 
        assert (Hs : c ∉ chars s) by (intros Hin; apply Hc; right; exact Hin).
        specialize (IH Hs). discriminate IH.
      * split; [|reflexivity]. intros _ Hin.
        apply elem_of_cons in Hin as [Hin|Hin]; [contradiction|].
        destruct IH as [IH _]. exact (IH eq_refl Hin).
Qed.

Lemma strings_Contains_char (c : Ascii.ascii) (s : string) :
  strings_Contains s (String c EmptyString) = true <-> c ∈ chars s.
Proof.
  unfold strings_Contains, strings_Index.
  destruct (String.index 0 (String c EmptyString) s) as [n|] eqn:E.
  - split; [intros _ | intros _; apply bool_decide_eq_true; lia].
    destruct (decide (c ∈ chars s)) as [Hin|Hout]; [exact Hin|].
    apply index_char_None in Hout. congruence.
  - split; [intros H; apply bool_decide_eq_true in H; lia|].
    intros Hin. apply index_char_None in E. contradiction.
Qed.

Lemma length_append (s t : string) :
  String.length (s +:+ t) = String.length s + String.length t.
Proof.
  induction s as [|b s IH]; [reflexivity|].
  rewrite append_String. cbn. rewrite IH. reflexivity.
Qed.

Lemma substring_whole (s : string) : String.substring 0 (String.length s) s = s.
Proof. induction s as [|b s IH]; [reflexivity|]. cbn. rewrite IH. reflexivity. Qed.

Lemma substring_skip (pre s : string) (n m : nat) :
  String.substring (String.length pre + n) m (pre +:+ s) = String.substring n m s.
Proof.
  induction pre as [|b pre IH]; [reflexivity|].
  rewrite append_String. cbn. exact IH.
Qed.

(** X1: the wildcard name [ServeFiles] extracts from a path (lines
    181-184) is what follows the first ["*"]: for a path [pre*name] whose
    part [pre] has no ["*"] it is [name] (empty when the ["*"] ends the
    path), and for a path without ["*"] it is empty. *)
Theorem wildcard_name_after_star :
  (forall pre name : string,
      "*"%char ∉ chars pre ->
      wildcard_name (pre +:+ String "*" name) = name)
  /\ (forall path : string,
      "*"%char ∉ chars path -> wildcard_name path = "").
Proof.
  split.
  - intros pre name Hpre. unfold wildcard_name, strings_Index.
    rewrite (index_char_append "*" pre name Hpre).
    rewrite length_append. cbn [String.length].
    destruct name as [|c name].
    + cbn [String.length]. case_decide as Hd; [lia | reflexivity].
    + cbn [String.length]. case_decide as Hd; [|lia].
      unfold slice_from. rewrite length_append. cbn [String.length].
      replace (Z.to_nat (Z.of_nat (String.length pre) + 1))
        with (String.length pre + 1) by lia.
      rewrite substring_skip.
      replace (String.length pre + S (S (String.length name)) - (String.length pre + 1))
        with (S (String.length name)) by lia.
      cbn [String.substring]. f_equal.
      change (String.substring 0 (S (String.length name)) (String c name))
        with (String c (String.substring 0 (String.length name) name)).
      rewrite substring_whole. reflexivity.
  - intros path Hpath. unfold wildcard_name, strings_Index.
    apply index_char_None in Hpath. rewrite Hpath.
    case_decide as Hd; [lia | reflexivity].
Qed.

Lemma wildcard_name_after_star_witness :
  wildcard_name ("/assets/" +:+ String "*" "filepath") = "filepath"
  /\ wildcard_name "/index.html" = "".
Proof.
  split.
  - apply (proj1 wildcard_name_after_star "/assets/" "filepath").
    apply (bool_decide_unpack _). vm_compute. exact I.
  - apply (proj2 wildcard_name_after_star "/index.html").
    apply (bool_decide_unpack _). vm_compute. exact I.
Defined.

(** ** Serving files *)

(** X2: [ServeFiles] fails with the message about wildcards exactly when
    the path contains the character [":"], whether or not the file exists:
    the path is tested before the file (lines 165-170). *)
Theorem ServeFiles_rejects_colon os st service path filename w :
  ":"%char ∈ chars path
  <-> ServeFiles os st service path filename w
      = Ret (Some (Errorf "path may only include wildcards that match the entire end of the URL (e.g. *filepath)"),
             service) w.
Proof.
  rewrite <- (strings_Contains_char ":" path). unfold ServeFiles.
  change (String ":" "") with ":".
  destruct (strings_Contains path ":"); split; intros H; try reflexivity.
  - discriminate H.
  - exfalso. destruct (os_Stat os filename).
    + apply (f_equal (fun o => match o with
                              | Ret (Some (Opaque t), _) _ => t
                              | _ => ""
                              end)) in H.
      cbn in H. rewrite append_String in H. discriminate H.
    + unfold bind, LogInfo, ret in H. discriminate H.
Qed.

Lemma ServeFiles_rejects_colon_witness :
  ServeFiles one_file [] (New "cellar") "/bottles/:id" "/www/data/missing.html"
             (mkWorld fresh_response [] [] [])
  = Ret (Some (Errorf "path may only include wildcards that match the entire end of the URL (e.g. *filepath)"),
         New "cellar") (mkWorld fresh_response [] [] []).
Proof.
  apply (proj1 (ServeFiles_rejects_colon one_file [] (New "cellar") "/bottles/:id"
                  "/www/data/missing.html" (mkWorld fresh_response [] [] []))).
  apply (bool_decide_unpack _). vm_compute. exact I.
Defined.

(** X3: what a mounted file route does (lines 180-197, with the example
    of lines 153-163). On a service without middleware, after a successful
    [ServeFiles path filename] the last route of the mux answers every
    request, whatever its [ContentLength], by logging and handing to
    [http.ServeFile] the name [filename] joined with the first value of the
    parameter named after the ["*"] of the path, or [filename] itself when
    the path has no wildcard or the request lacks that parameter; the
    answer of [http.ServeFile] is written through the tracker and is the
    response. The route panics when the parameter is present with no
    value. *)
Theorem ServeFiles_route_serves os st service path filename w :
  elements st (Service.Middleware service) = [] ->
  ":"%char ∉ chars path ->
  os_Stat os filename = None ->
  exists service' w' route,
    ServeFiles os st service path filename w = Ret (None, service') w'
    /\ last (Service.Mux service') = Some route
    /\ method route = "GET" /\ pattern route = path
    /\ forall st' rw req params w2,
         handle route st' rw req params w2
         = match (if decide (wildcard_name path = "") then None
                  else params !! wildcard_name path) with
           | Some [] => Panicked (request_world w2)
           | Some (m0 :: _) =>
               Ret tt (served_world os (filepath_Join os filename m0) req w2)
           | None => Ret tt (served_world os filename req w2)
           end.
Proof.
  intros Hmw Hpath Hstat.
  assert (Hc : strings_Contains path ":" = false).
  { destruct (strings_Contains path ":") eqn:E; [|reflexivity].
    change ":" with (String ":"%char "") in E.
    apply strings_Contains_char in E. contradiction. }
  unfold ServeFiles. rewrite Hc, Hstat.
  eexists _, _, _. split; [reflexivity|]. cbn [Service.Mux]. unfold Handle.
  split; [apply last_snoc|]. split; [reflexivity|]. split; [reflexivity|].
  intros st' rw req params w2. cbn [handle].
  rewrite MuxHandler_no_decoding by (intros [_ [u Hu]]; discriminate Hu).
  cbn [NewController Controller.Middleware]. rewrite Hmw, wrap_nil.
  unfold terminal, bind at 1, Written. cbn [request_world set_response response
    fresh_response written negb].
  unfold serve_handler, request_context. cbn [ctxRequest Params rdRequest].
  unfold served_world, http_ServeFile.
  destruct (wildcard_name path) as [|c wc] eqn:Hwc.
  - destruct (decide ("" = "")) as [_|Hne]; [reflexivity | contradiction].
  - destruct (decide (String c wc = "")) as [Heq|_]; [discriminate Heq|].
    destruct (decide (0 < String.length (String c wc))) as [_|Hlen];
      [|cbn in Hlen; lia].
    destruct (params !! String c wc) as [[|m0 ms]|]; reflexivity.
Qed.

Lemma ServeFiles_route_serves_witness :
  exists service' w' route,
    ServeFiles assets_dir [] (New "cellar") "/assets/*filepath" "/www/data/assets"
               (mkWorld fresh_response [] [] [])
    = Ret (None, service') w'
    /\ last (Service.Mux service') = Some route
    /\ method route = "GET" /\ pattern route = "/assets/*filepath"
    /\ forall st' rw req params w2,
         handle route st' rw req params w2
         = match (if decide (wildcard_name "/assets/*filepath" = "") then None
                  else params !! wildcard_name "/assets/*filepath") with
           | Some [] => Panicked (request_world w2)
           | Some (m0 :: _) =>
               Ret tt (served_world assets_dir
                         (filepath_Join assets_dir "/www/data/assets" m0) req w2)
           | None => Ret tt (served_world assets_dir "/www/data/assets" req w2)
           end.
Proof.
  apply (ServeFiles_route_serves assets_dir [] (New "cellar") "/assets/*filepath"
           "/www/data/assets" (mkWorld fresh_response [] [] [])).
  - reflexivity.
  - apply (bool_decide_unpack _). vm_compute. exact I.
  - reflexivity.
Defined.

(** The example of lines 161-163: a request for [/assets/x/y/z]. *)
Example assets_route_serves_xyz :
  MuxHandler (New "cellar") [] (NewController (New "cellar") "FileServer")
             "Serve"
             (serve_handler assets_dir "/www/data/assets"
                (wildcard_name "/assets/*filepath")) None
             [] RawWriter (mkRequest 0 "/assets/x/y/z")
             {[ "filepath" := ["x/y/z"] ]}
             (mkWorld fresh_response [] [] [])
  = Ret tt
      (mkWorld
         (mkResponseData true
            [(200%Z, BodyString "contents of /www/data/assets/x/y/z")])
         [mkLogEntry LevelInfo "serve file"
            [("filepath", "/www/data/assets/x/y/z"); ("path", "/assets/x/y/z")]]
         [] ["/www/data/assets/x/y/z"]).
Proof. vm_compute. reflexivity. Qed.

(** ** Error handling *)

(** X4: when neither the controller nor the service has an error handler
    (lines 216-222), an error returned by the business handler is logged
    and counted and nothing else happens: no response is written and the
    innermost handler returns nil. *)
Theorem error_without_handlers service ctrl hdlr ctx rw req err w w1 :
  Controller.ErrorHandler ctrl = None ->
  Service.ErrorHandler service = None ->
  written (response w) = false ->
  hdlr ctx rw req w = Ret (Some err) w1 ->
  terminal service ctrl hdlr ctx rw req w
  = Ret None
      (add_spawned (counter_key err)
         (add_log (mkLogEntry LevelInfo "ERROR" [("err", Error_text err)]) w1)).
Proof.
  intros Hc Hs Hw Hh.
  unfold terminal, bind at 1, Written. rewrite Hw. cbn [negb].
  unfold bind at 1. rewrite Hh.
  unfold bind at 1, LogInfo. unfold bind at 1.
  rewrite HandleError_selected. unfold selected_handler. rewrite Hc, Hs.
  reflexivity.
Qed.

Lemma error_without_handlers_witness :
  terminal unhandled (NewController unhandled "bottle") not_found
           (mkContext [] [] None) Tracker (mkRequest 0 "/bottles/7")
           (mkWorld fresh_response [] [] [])
  = Ret None
      (mkWorld fresh_response
               [mkLogEntry LevelInfo "ERROR" [("err", "no such bottle")]]
               [["goa"; "handler"; "error"; "404"]] []).
Proof.
  exact (error_without_handlers unhandled (NewController unhandled "bottle")
           not_found (mkContext [] [] None) Tracker (mkRequest 0 "/bottles/7")
           (Structured (mkError 404 "no such bottle"))
           (mkWorld fresh_response [] [] []) (mkWorld fresh_response [] [] [])
           eq_refl eq_refl eq_refl eq_refl).
Defined.

Lemma terminal_Ret_nil service ctrl hdlr ctx rw req w r w' :
  terminal service ctrl hdlr ctx rw req w = Ret r w' -> r = None.
Proof.
  unfold terminal, bind at 1, Written.
  destruct (written (response w)); cbn [negb].
  - intros H. injection H as H _. symmetry. exact H.
  - unfold bind at 1. destruct (hdlr ctx rw req w) as [[e|] w1|w1].
    + unfold bind at 1, LogInfo. unfold bind at 1.
      destruct (HandleError service ctrl ctx rw req e _) as [[] w2|w2];
        [|discriminate].
      intros H. injection H as H _. symmetry. exact H.
    + intros H. injection H as H _. symmetry. exact H.
    + discriminate.
Qed.

Lemma invalid_payload_Ret_nil ctrl err ctx rw req w r w' :
  invalid_payload ctrl err ctx rw req w = Ret r w' -> r = None.
Proof.
  unfold invalid_payload, bind.
  destruct (Controller.ErrorHandler ctrl) as [h|]; [|discriminate].
  destruct (h ctx rw req (ErrInvalidEncoding err) w) as [[] w2|w2];
    [|discriminate].
  intros H. injection H as H _. symmetry. exact H.
Qed.

(** X5: the innermost handler (lines 232-240) and the handler
    substituted after a decoding failure (lines 260-263) either panic or
    return nil: a middleware never sees, in the value returned by the
    handler it wraps, the error of the business handler or of the
    decoding. *)
Theorem innermost_returns_nil service ctrl hdlr err ctx rw req w :
  ((exists w', terminal service ctrl hdlr ctx rw req w = Ret None w')
   \/ (exists w', terminal service ctrl hdlr ctx rw req w = Panicked w'))
  /\ ((exists w', invalid_payload ctrl err ctx rw req w = Ret None w')
      \/ (exists w', invalid_payload ctrl err ctx rw req w = Panicked w')).
Proof.
  split.
  - destruct (terminal service ctrl hdlr ctx rw req w) as [r w'|w'] eqn:E;
      [left | right]; exists w'; [|reflexivity].
    rewrite (terminal_Ret_nil _ _ _ _ _ _ _ _ _ E). reflexivity.
  - destruct (invalid_payload ctrl err ctx rw req w) as [r w'|w'] eqn:E;
      [left | right]; exists w'; [|reflexivity].
    rewrite (invalid_payload_Ret_nil _ _ _ _ _ _ _ _ E). reflexivity.
Qed.

(** ** Slices and the registration of middleware *)

Lemma nil_slice_ok (st : Store) : slice_ok st nil_slice.
Proof. split; [reflexivity | left; reflexivity]. Qed.

Lemma elements_length (st : Store) (s : Slice) :
  slice_ok st s -> length (elements st s) = slen s.
Proof.
  intros [Hcap [Hz | (cells & Hcells & Hlen)]]; unfold elements.
  - rewrite length_take. lia.
  - rewrite Hcells. cbn. rewrite length_take. lia.
Qed.

Lemma store_cell_length (i : nat) (m : Middleware) (cells : list Middleware) :
  i <= length cells -> length cells <= length (store_cell i m cells).
Proof.
  intros Hi. unfold store_cell.
  rewrite length_app, length_take. cbn. rewrite length_drop. lia.
Qed.

Lemma store_cell_take (i j : nat) (m : Middleware) (cells : list Middleware) :
  j <= i -> i <= length cells ->
  take j (store_cell i m cells) = take j cells.
Proof.
  intros Hj Hi. unfold store_cell.
  rewrite take_app_le by (rewrite length_take; lia).
  rewrite take_take. f_equal. lia.
Qed.

Lemma store_cell_take_S (i : nat) (m : Middleware) (cells : list Middleware) :
  i <= length cells ->
  take (S i) (store_cell i m cells) = take i cells ++ [m].
Proof.
  intros Hi. unfold store_cell.
  rewrite take_app_ge by (rewrite length_take; lia).
  rewrite length_take. replace (S i - i `min` length cells) with 1 by lia.
  reflexivity.
Qed.

Section AppendFacts.

Variable growth : nat -> nat.

(** The slice returned by [append] has the old elements followed by the
    new one. *)
Lemma append_elements (s : Slice) (m : Middleware) (st : Store) :
  slice_ok st s ->
  elements (append growth s m st).2 (append growth s m st).1
  = elements st s ++ [m].
Proof.
  intros Hok. pose proof (elements_length st s Hok) as Hlen.
  destruct Hok as [Hcap Hcells]. unfold append.
  destruct (decide (slen s < scap s)) as [Hroom|Hfull]; cbn [fst snd].
  - destruct Hcells as [Hz | (cells & Hcells & Hle)]; [lia|].
    unfold elements. cbn [sarr slen].
    rewrite list_lookup_alter_eq, Hcells. cbn.
    apply store_cell_take_S, Hle.
  - unfold elements at 1. cbn [sarr slen].
    rewrite lookup_app_r by lia. rewrite Nat.sub_diag. cbn.
    rewrite take_ge; [reflexivity|]. rewrite length_app, Hlen. cbn. lia.
Qed.

Lemma append_ok (s : Slice) (m : Middleware) (st : Store) :
  slice_ok st s -> slice_ok (append growth s m st).2 (append growth s m st).1.
Proof.
  intros Hok. pose proof (elements_length st s Hok) as Hlen.
  destruct Hok as [Hcap Hcells]. unfold append.
  destruct (decide (slen s < scap s)) as [Hroom|Hfull]; cbn [fst snd].
  - destruct Hcells as [Hz | (cells & Hcells & Hle)]; [lia|].
    split; cbn [sarr slen scap]; [lia|]. right.
    exists (store_cell (slen s) m cells). split.
    + rewrite list_lookup_alter_eq, Hcells. reflexivity.
    + unfold store_cell. rewrite length_app, length_take. cbn. lia.
  - split; cbn [sarr slen scap]; [lia|]. right.
    exists (elements st s ++ [m]). split.
    + rewrite lookup_app_r by lia. rewrite Nat.sub_diag. reflexivity.
    + rewrite length_app, Hlen. cbn. lia.
Qed.

(** [append] keeps every other slice header fitting the store, and does
    not change the elements of a slice that is no longer than the one
    appended to. *)
Lemma append_keeps_ok (s t : Slice) (m : Middleware) (st : Store) :
  slice_ok st s -> slice_ok st t -> slice_ok (append growth s m st).2 t.
Proof.
  intros [Hcap Hcells] [Htcap Htcells]. split; [exact Htcap|].
  destruct Htcells as [Hz | (tcells & Htc & Htle)]; [left; exact Hz|]. right.
  unfold append.
  destruct (decide (slen s < scap s)) as [Hroom|Hfull]; cbn [snd].
  - destruct Hcells as [Hz | (cells & Hc & Hle)]; [lia|].
    destruct (decide (sarr t = sarr s)) as [Heq|Hne].
    + rewrite Heq in Htc. rewrite Hc in Htc. injection Htc as <-.
      exists (store_cell (slen s) m cells). split.
      * rewrite Heq, list_lookup_alter_eq, Hc. reflexivity.
      * pose proof (store_cell_length (slen s) m cells Hle). lia.
    + exists tcells. split; [|exact Htle].
      rewrite list_lookup_alter_ne by congruence. exact Htc.
  - exists tcells. split; [|exact Htle].
    rewrite lookup_app_l; [exact Htc|]. apply lookup_lt_Some in Htc. exact Htc.
Qed.

Lemma append_keeps_shorter (s t : Slice) (m : Middleware) (st : Store) :
  slice_ok st s -> slice_ok st t -> slen t <= slen s ->
  elements (append growth s m st).2 t = elements st t.
Proof.
  intros [Hcap Hcells] [Htcap Htcells] Hshort. unfold append, elements.
  destruct Htcells as [Hz | (tcells & Htc & Htle)].
  { replace (slen t) with 0 by lia. reflexivity. }
  destruct (decide (slen s < scap s)) as [Hroom|Hfull]; cbn [snd].
  - destruct Hcells as [Hz | (cells & Hc & Hle)]; [lia|].
    destruct (decide (sarr t = sarr s)) as [Heq|Hne].
    + rewrite Heq in *. rewrite Hc in Htc. injection Htc as <-.
      rewrite list_lookup_alter_eq, Hc. cbn.
      apply store_cell_take; [exact Hshort | exact Hle].
    + rewrite list_lookup_alter_ne by congruence. reflexivity.
  - rewrite lookup_app_l; [reflexivity|]. apply lookup_lt_Some in Htc. exact Htc.
Qed.

(** Two appends to copies of one slice header that has room left: the
    second writes the cell the first wrote, and both results are the same
    header. *)
Lemma append_shared_cell (s : Slice) (x y : Middleware) (st : Store) :
  slice_ok st s -> slen s < scap s ->
  (append growth s y (append growth s x st).2).1 = (append growth s x st).1
  /\ elements (append growth s x st).2 (append growth s x st).1
     = elements st s ++ [x]
  /\ elements (append growth s y (append growth s x st).2).2
              (append growth s x st).1
     = elements st s ++ [y].
Proof.
  intros Hok Hroom.
  assert (Hhdr : (append growth s y (append growth s x st).2).1
                 = (append growth s x st).1).
  { unfold append. destruct (decide (slen s < scap s)); [reflexivity | lia]. }
  split; [exact Hhdr|]. split; [apply append_elements, Hok|].
  rewrite <- Hhdr.
  rewrite append_elements by (apply append_keeps_ok; exact Hok).
  rewrite append_keeps_shorter by (exact Hok || lia). reflexivity.
Qed.

Lemma Service_Use_all_cons (service : Service.t) (m : Middleware)
    (ms : list Middleware) (st : Store) :
  Service_Use_all growth service (m :: ms) st
  = Service_Use_all growth (Service_Use growth service m st).1 ms
                    (Service_Use growth service m st).2.
Proof.
  unfold Service_Use_all. cbn [foldl fst snd].
  destruct (Service_Use growth service m st). reflexivity.
Qed.

Lemma Controller_Use_all_cons (ctrl : Controller.t) (c : Middleware)
    (cs : list Middleware) (st : Store) :
  Controller_Use_all growth ctrl (c :: cs) st
  = Controller_Use_all growth (Controller_Use growth ctrl c st).1 cs
                       (Controller_Use growth ctrl c st).2.
Proof.
  unfold Controller_Use_all. cbn [foldl fst snd].
  destruct (Controller_Use growth ctrl c st). reflexivity.
Qed.

Lemma Service_Use_all_elements (service : Service.t) (ms : list Middleware)
    (st : Store) :
  slice_ok st (Service.Middleware service) ->
  elements (Service_Use_all growth service ms st).2
           (Service.Middleware (Service_Use_all growth service ms st).1)
  = elements st (Service.Middleware service) ++ ms
  /\ slice_ok (Service_Use_all growth service ms st).2
              (Service.Middleware (Service_Use_all growth service ms st).1).
Proof.
  revert service st. induction ms as [|m ms IH]; intros service st Hok.
  - cbn. rewrite app_nil_r. split; [reflexivity | exact Hok].
  - rewrite Service_Use_all_cons.
    assert (Hstep :
      elements (Service_Use growth service m st).2
               (Service.Middleware (Service_Use growth service m st).1)
      = elements st (Service.Middleware service) ++ [m]
      /\ slice_ok (Service_Use growth service m st).2
                  (Service.Middleware (Service_Use growth service m st).1)).
    { unfold Service_Use.
      pose proof (append_elements (Service.Middleware service) m st Hok) as He.
      pose proof (append_ok (Service.Middleware service) m st Hok) as Ho.
      destruct (append growth (Service.Middleware service) m st) as [mw st1].
      split; [exact He | exact Ho]. }
    destruct Hstep as [He Ho].
    destruct (IH _ _ Ho) as [IHe IHo].
    split; [|exact IHo]. rewrite IHe, He, <- app_assoc. reflexivity.
Qed.

Lemma Controller_Use_all_elements (ctrl : Controller.t) (cs : list Middleware)
    (st : Store) :
  slice_ok st (Controller.Middleware ctrl) ->
  elements (Controller_Use_all growth ctrl cs st).2
           (Controller.Middleware (Controller_Use_all growth ctrl cs st).1)
  = elements st (Controller.Middleware ctrl) ++ cs
  /\ slice_ok (Controller_Use_all growth ctrl cs st).2
              (Controller.Middleware (Controller_Use_all growth ctrl cs st).1).
Proof.
  revert ctrl st. induction cs as [|c cs IH]; intros ctrl st Hok.
  - cbn. rewrite app_nil_r. split; [reflexivity | exact Hok].
  - rewrite Controller_Use_all_cons.
    assert (Hstep :
      elements (Controller_Use growth ctrl c st).2
               (Controller.Middleware (Controller_Use growth ctrl c st).1)
      = elements st (Controller.Middleware ctrl) ++ [c]
      /\ slice_ok (Controller_Use growth ctrl c st).2
                  (Controller.Middleware (Controller_Use growth ctrl c st).1)).
    { unfold Controller_Use.
      pose proof (append_elements (Controller.Middleware ctrl) c st Hok) as He.
      pose proof (append_ok (Controller.Middleware ctrl) c st Hok) as Ho.
      destruct (append growth (Controller.Middleware ctrl) c st) as [mw st1].
      split; [exact He | exact Ho]. }
    destruct Hstep as [He Ho].
    destruct (IH _ _ Ho) as [IHe IHo].
    split; [|exact IHo]. rewrite IHe, He, <- app_assoc. reflexivity.
Qed.

End AppendFacts.

(** X7: middleware registered with [Service.Use] before the controller is
    created (lines 110-112, 143-151) wrap the middleware registered with
    [Controller.Use] right afterwards (lines 204-206), each group in the
    order of registration: when the service registers [ms], the controller
    is created and registers [cs], with no other [Use] in between, the
    controller's slice then holds the service's earlier middleware, [ms]
    and [cs] in that order, and the chain around a handler [h] is the
    earlier middleware around [ms] around [cs] around [h]. *)
Theorem Use_order growth service resName (ms cs : list Middleware) (st : Store)
    (h : Handler) :
  slice_ok st (Service.Middleware service) ->
  let sv := Service_Use_all growth service ms st in
  let cu := Controller_Use_all growth (NewController sv.1 resName) cs sv.2 in
  elements cu.2 (Controller.Middleware cu.1)
  = elements st (Service.Middleware service) ++ ms ++ cs
  /\ wrap (elements cu.2 (Controller.Middleware cu.1)) h
     = wrap (elements st (Service.Middleware service)) (wrap ms (wrap cs h)).
Proof.
  intros Hok sv cu.
  destruct (Service_Use_all_elements growth service ms st Hok) as [Hsv Hsvok].
  fold sv in Hsv, Hsvok.
  destruct (Controller_Use_all_elements growth (NewController sv.1 resName) cs sv.2
              Hsvok) as [Hcu _].
  fold cu in Hcu. cbn [NewController Controller.Middleware] in Hcu.
  assert (He : elements cu.2 (Controller.Middleware cu.1)
               = elements st (Service.Middleware service) ++ ms ++ cs).
  { rewrite Hcu, Hsv, <- app_assoc. reflexivity. }
  split; [exact He|]. rewrite He, !wrap_foldr, !foldr_app. reflexivity.
Qed.

Lemma Use_order_witness :
  let sv := Service_Use_all double (New "cellar") [named "s1"; named "s2"] [] in
  let cu := Controller_Use_all double (NewController sv.1 "bottle")
                               [named "c1"] sv.2 in
  elements cu.2 (Controller.Middleware cu.1)
  = elements [] (Service.Middleware (New "cellar"))
    ++ [named "s1"; named "s2"] ++ [named "c1"]
  /\ wrap (elements cu.2 (Controller.Middleware cu.1)) handled
     = wrap (elements [] (Service.Middleware (New "cellar")))
            (wrap [named "s1"; named "s2"] (wrap [named "c1"] handled)).
Proof.
  exact (Use_order double (New "cellar") "bottle" [named "s1"; named "s2"]
           [named "c1"] [] handled (nil_slice_ok [])).
Defined.

(** X15: a [Use] can overwrite the middleware of a controller. When the
    slice of the service has room left ([len < cap]), the controller made
    by [NewController] shares its array (line 147): after the controller
    registers [x] (line 205) and the service, or another controller of the
    service, registers [y] (lines 111, 205), the last element of the first
    controller's slice is [y]. An entry point built in between runs [x] on
    a request that decodes, having composed its chain when it was built,
    and [y] on a request whose body fails to decode. *)
Theorem Use_overwrites_shared_cell growth service resName other x y st :
  slice_ok st (Service.Middleware service) ->
  slen (Service.Middleware service) < scap (Service.Middleware service) ->
  let cu := Controller_Use growth (NewController service resName) x st in
  let su := Service_Use growth service y cu.2 in
  let ou := Controller_Use growth (NewController service other) y cu.2 in
  elements cu.2 (Controller.Middleware cu.1)
  = elements st (Service.Middleware service) ++ [x]
  /\ elements su.2 (Controller.Middleware cu.1)
     = elements st (Service.Middleware service) ++ [y]
  /\ elements ou.2 (Controller.Middleware cu.1)
     = elements st (Service.Middleware service) ++ [y]
  /\ forall name hdlr u rw req params w,
       (ContentLength req > 0)%Z ->
       MuxHandler service cu.2 cu.1 name hdlr (Some u) su.2 rw req params w
       = match u (request_context cu.1 name req params) req (request_world w) with
         | Ret None w1 =>
             discard (wrap (elements st (Service.Middleware service) ++ [x])
                        (terminal service cu.1 hdlr)
                        (request_context cu.1 name req params) Tracker req w1)
         | Ret (Some err) w1 =>
             discard (wrap (elements st (Service.Middleware service) ++ [y])
                        (invalid_payload cu.1 err)
                        (request_context cu.1 name req params) Tracker req w1)
         | Panicked w1 => Panicked w1
         end.
Proof.
  intros Hok Hroom cu su ou.
  destruct (append_shared_cell growth (Service.Middleware service) x y st Hok Hroom)
    as (Hhdr & Hx & Hy).
  assert (Hcu1 : Controller.Middleware cu.1
                 = (append growth (Service.Middleware service) x st).1).
  { unfold cu, Controller_Use. cbn [NewController Controller.Middleware].
    destruct (append growth (Service.Middleware service) x st). reflexivity. }
  assert (Hcu2 : cu.2 = (append growth (Service.Middleware service) x st).2).
  { unfold cu, Controller_Use. cbn [NewController Controller.Middleware].
    destruct (append growth (Service.Middleware service) x st). reflexivity. }
  assert (Hsu2 : su.2 = (append growth (Service.Middleware service) y cu.2).2).
  { unfold su, Service_Use.
    destruct (append growth (Service.Middleware service) y cu.2). reflexivity. }
  assert (Hou2 : ou.2 = (append growth (Service.Middleware service) y cu.2).2).
  { unfold ou, Controller_Use. cbn [NewController Controller.Middleware].
    destruct (append growth (Service.Middleware service) y cu.2). reflexivity. }
  assert (E1 : elements cu.2 (Controller.Middleware cu.1)
               = elements st (Service.Middleware service) ++ [x]).
  { rewrite Hcu1, Hcu2. exact Hx. }
  assert (E2 : elements su.2 (Controller.Middleware cu.1)
               = elements st (Service.Middleware service) ++ [y]).
  { rewrite Hsu2, Hcu1, Hcu2. exact Hy. }
  split; [exact E1|]. split; [exact E2|]. split.
  - rewrite Hou2, Hcu1, Hcu2. exact Hy.
  - intros name hdlr u rw req params w Hpos.
    rewrite MuxHandler_decoding by exact Hpos. rewrite E1, E2. reflexivity.
Qed.

Lemma Use_overwrites_shared_cell_witness :
  let service := three_used.1 in
  let cu := Controller_Use double (NewController service "bottle") (named "x")
                           three_used.2 in
  let su := Service_Use double service (named "s4") cu.2 in
  elements cu.2 (Controller.Middleware cu.1)
  = elements three_used.2 (Service.Middleware service) ++ [named "x"]
  /\ elements su.2 (Controller.Middleware cu.1)
     = elements three_used.2 (Service.Middleware service) ++ [named "s4"].
Proof.
  intros service cu su.
  assert (Hok : slice_ok three_used.2 (Service.Middleware three_used.1)).
  { split; [vm_compute; lia|]. right. eexists. split; [reflexivity|].
    vm_compute. lia. }
  assert (Hroom : slen (Service.Middleware three_used.1)
                  < scap (Service.Middleware three_used.1)).
  { vm_compute. lia. }
  pose proof (Use_overwrites_shared_cell double three_used.1 "bottle" "account"
                (named "x") (named "s4") three_used.2 Hok Hroom)
    as (E1 & E2 & _).
  split; [exact E1 | exact E2].
Defined.

(** ** The two policies compared *)

(** X8: the terse policy (lines 295-312) gives nothing of a 500-class
    error away: two errors answered with status 500, structured or not,
    leave the same response, whatever their messages. *)
Theorem Terse_hides_500 ctx rw req e1 e2 w :
  error_status e1 = 500%Z -> error_status e2 = 500%Z ->
  response (world_of (TerseErrorHandler ctx rw req e1 w))
  = response (world_of (TerseErrorHandler ctx rw req e2 w)).
Proof.
  assert (H500 : forall e, error_status e = 500%Z ->
            response (world_of (TerseErrorHandler ctx rw req e w))
            = send_to 500 (BodyString "internal error") (response w)).
  { intros [e|m] He; cbn in He.
    - rewrite TerseErrorHandler_structured.
      destruct (decide (Status e = 500%Z)); [reflexivity | contradiction].
    - rewrite TerseErrorHandler_opaque. reflexivity. }
  intros H1 H2. rewrite (H500 e1 H1), (H500 e2 H2). reflexivity.
Qed.

Lemma Terse_hides_500_witness :
  response (world_of (TerseErrorHandler (mkContext [] [] None) Tracker
                        (mkRequest 0 "/") (Opaque "db password rejected")
                        (mkWorld fresh_response [] [] [])))
  = response (world_of (TerseErrorHandler (mkContext [] [] None) Tracker
                          (mkRequest 0 "/")
                          (Structured (mkError 500 "disk full"))
                          (mkWorld fresh_response [] [] []))).
Proof.
  exact (Terse_hides_500 (mkContext [] [] None) Tracker (mkRequest 0 "/")
           (Opaque "db password rejected") (Structured (mkError 500 "disk full"))
           (mkWorld fresh_response [] [] []) eq_refl eq_refl).
Defined.

(** X9: the two policies (lines 277-312) differ in the body of 500-class
    answers only. For every error they log the same and send the same
    status, and for an error whose status is not 500 they do exactly the
    same. *)
Theorem policies_agree ctx rw req e w :
  logs (world_of (TerseErrorHandler ctx rw req e w))
  = logs (world_of (DefaultErrorHandler ctx rw req e w))
  /\ (wire (response (world_of (TerseErrorHandler ctx rw req e w)))).*1
     = (wire (response (world_of (DefaultErrorHandler ctx rw req e w)))).*1
  /\ (error_status e ≠ 500%Z ->
      TerseErrorHandler ctx rw req e w = DefaultErrorHandler ctx rw req e w).
Proof.
  destruct e as [e|m].
  - rewrite TerseErrorHandler_structured, DefaultErrorHandler_structured.
    destruct (decide (Status e = 500%Z)) as [He|He].
    + split; [reflexivity|]. split; [|cbn; contradiction].
      cbn. unfold send_to. destruct (written (response w)); [reflexivity|].
      cbn. rewrite !fmap_app, He. reflexivity.
    + split; [reflexivity|]. split; reflexivity.
  - rewrite TerseErrorHandler_opaque, DefaultErrorHandler_opaque.
    split; [reflexivity|]. split; [|cbn; contradiction].
    cbn. unfold send_to. destruct (written (response w)); [reflexivity|].
    cbn. rewrite !fmap_app. reflexivity.
Qed.

Lemma policies_agree_witness :
  TerseErrorHandler (mkContext [] [] None) Tracker (mkRequest 0 "/")
                    (Structured (mkError 409 "already exists"))
                    (mkWorld fresh_response [] [] [])
  = DefaultErrorHandler (mkContext [] [] None) Tracker (mkRequest 0 "/")
                        (Structured (mkError 409 "already exists"))
                        (mkWorld fresh_response [] [] []).
Proof.
  refine (proj2 (proj2 (policies_agree (mkContext [] [] None) Tracker
                          (mkRequest 0 "/")
                          (Structured (mkError 409 "already exists"))
                          (mkWorld fresh_response [] [] []))) _).
  cbn. lia.
Defined.

(** ** What the policies leave untouched *)

Lemma policy_effect (policy : ErrorHandler) ctx rw req e w :
  policy = DefaultErrorHandler \/ policy = TerseErrorHandler ->
  exists body w',
    policy ctx rw req e w = Ret tt w'
    /\ response w' = send_to (error_status e) body (response w)
    /\ spawned w' = spawned w
    /\ served w' = served w
    /\ logs w' = (if decide (error_status e = 500%Z)
                  then logs w ++ [mkLogEntry LevelError (Error_text e) []]
                  else logs w).
Proof.
  intros [-> | ->]; destruct e as [e|m]; cbn [error_status Error_text].
  - rewrite DefaultErrorHandler_structured. eexists _, _.
    split; [reflexivity|]. destruct (decide (Status e = 500%Z)); repeat split.
  - rewrite DefaultErrorHandler_opaque. eexists _, _.
    split; [reflexivity|]. repeat split.
  - rewrite TerseErrorHandler_structured.
    destruct (decide (Status e = 500%Z)) as [He|He]; eexists _, _;
      (split; [reflexivity|]); rewrite ?He; repeat split.
  - rewrite TerseErrorHandler_opaque. eexists _, _.
    split; [reflexivity|]. repeat split.
Qed.

(** X10: a decoding failure is not counted. With either policy as the
    controller's error handler, the handler substituted at lines 260-263
    starts no counter update and logs nothing, whereas [HandleError]
    (lines 210-223) on the same error starts the update of the counter of
    its status. *)
Theorem decode_failure_not_counted service ctrl policy err ctx rw req w :
  policy = DefaultErrorHandler \/ policy = TerseErrorHandler ->
  Controller.ErrorHandler ctrl = Some policy ->
  spawned (world_of (invalid_payload ctrl err ctx rw req w)) = spawned w
  /\ logs (world_of (invalid_payload ctrl err ctx rw req w)) = logs w
  /\ spawned (world_of (HandleError service ctrl ctx rw req
                          (ErrInvalidEncoding err) w))
     = spawned w ++ [["goa"; "handler"; "error"; "400"]].
Proof.
  intros Hp Heh.
  destruct (policy_effect policy ctx rw req (ErrInvalidEncoding err) w Hp)
    as (body & w' & Hrun & _ & Hsp & _ & Hlogs).
  destruct (policy_effect policy ctx rw req (ErrInvalidEncoding err)
              (add_spawned (counter_key (ErrInvalidEncoding err)) w) Hp)
    as (body2 & w2 & Hrun2 & _ & Hsp2 & _ & _).
  split; [|split].
  - rewrite (invalid_payload_set _ _ _ _ _ _ _ Heh). unfold bind. rewrite Hrun.
    exact Hsp.
  - rewrite (invalid_payload_set _ _ _ _ _ _ _ Heh). unfold bind. rewrite Hrun.
    exact Hlogs.
  - rewrite HandleError_selected. unfold selected_handler. rewrite Heh.
    fold (counter_key (ErrInvalidEncoding err)). rewrite Hrun2. exact Hsp2.
Qed.

Lemma decode_failure_not_counted_witness :
  let ctrl := NewController (New "cellar") "bottle" in
  let w := mkWorld fresh_response [] [] [] in
  spawned (world_of (invalid_payload ctrl (Opaque "bad json")
                       (mkContext [] [] None) Tracker (mkRequest 12 "/") w))
  = []
  /\ logs (world_of (invalid_payload ctrl (Opaque "bad json")
                       (mkContext [] [] None) Tracker (mkRequest 12 "/") w))
     = []
  /\ spawned (world_of (HandleError (New "cellar") ctrl (mkContext [] [] None)
                          Tracker (mkRequest 12 "/")
                          (ErrInvalidEncoding (Opaque "bad json")) w))
     = [["goa"; "handler"; "error"; "400"]].
Proof.
  intros ctrl w.
  exact (decode_failure_not_counted (New "cellar") ctrl DefaultErrorHandler
           (Opaque "bad json") (mkContext [] [] None) Tracker (mkRequest 12 "/")
           w (or_introl eq_refl) eq_refl).
Defined.

(** X11: the counter of line 215 is keyed by the status alone. Every call
    of [HandleError] starts the update of the counter
    [goa.handler.error.<status>] before the selected handler runs; two
    errors share a counter exactly when they have the same status, so an
    error that is not structured is counted with the structured errors of
    status 500. *)
Theorem counter_per_status :
  (forall service ctrl ctx rw req err w,
      HandleError service ctrl ctx rw req err w
      = selected_handler service ctrl ctx rw req err
          (add_spawned (counter_key err) w))
  /\ (forall e1 e2,
      counter_key e1 = counter_key e2 <-> error_status e1 = error_status e2)
  /\ (forall m e, Status e = 500%Z ->
      counter_key (Opaque m) = counter_key (Structured e)).
Proof.
  split; [intros; apply HandleError_selected|]. split.
  - intros e1 e2. unfold counter_key, Itoa. split.
    + intros H. injection H as H. exact (inj pretty _ _ H).
    + intros ->. reflexivity.
  - intros m e He. unfold counter_key. cbn [error_status]. rewrite He.
    reflexivity.
Qed.

Lemma counter_per_status_witness :
  counter_key (Opaque "disk full")
  = counter_key (Structured (mkError 500 "db password rejected")).
Proof.
  exact (proj2 (proj2 counter_per_status) "disk full"
           (mkError 500 "db password rejected") eq_refl).
Defined.

(** X12: an error returned by a business handler that has already
    answered cannot change the answer. With either policy as the
    controller's error handler the error is still logged and counted
    (lines 234-236), but the response stays the one the handler wrote. *)
Theorem late_error_keeps_response service ctrl policy hdlr ctx rw req err w w1 :
  policy = DefaultErrorHandler \/ policy = TerseErrorHandler ->
  Controller.ErrorHandler ctrl = Some policy ->
  written (response w) = false ->
  hdlr ctx rw req w = Ret (Some err) w1 ->
  written (response w1) = true ->
  exists w2,
    terminal service ctrl hdlr ctx rw req w = Ret None w2
    /\ response w2 = response w1
    /\ spawned w2 = spawned w1 ++ [counter_key err]
    /\ exists rest,
         logs w2
         = logs w1 ++ mkLogEntry LevelInfo "ERROR" [("err", Error_text err)] :: rest.
Proof.
  intros Hp Heh Hw Hh Hw1.
  destruct (policy_effect policy ctx rw req err
              (add_spawned (counter_key err)
                 (add_log (mkLogEntry LevelInfo "ERROR" [("err", Error_text err)]) w1))
              Hp)
    as (body & w2 & Hrun & Hresp & Hsp & _ & Hlogs).
  exists w2. split; [|split; [|split]].
  - unfold terminal, bind at 1, Written. rewrite Hw. cbn [negb].
    unfold bind at 1. rewrite Hh.
    unfold bind at 1, LogInfo. unfold bind at 1.
    rewrite HandleError_selected. unfold selected_handler. rewrite Heh.
    fold (counter_key err). rewrite Hrun. reflexivity.
  - rewrite Hresp. cbn [add_spawned add_log response].
    apply send_to_written, Hw1.
  - rewrite Hsp. reflexivity.
  - rewrite Hlogs. cbn [add_spawned add_log logs].
    destruct (decide (error_status err = 500%Z)).
    + eexists. rewrite <- app_assoc. reflexivity.
    + exists []. reflexivity.
Qed.

Lemma late_error_keeps_response_witness :
  exists w2,
    terminal (New "cellar") (NewController (New "cellar") "bottle")
             answer_then_fail (mkContext [] [] None) Tracker (mkRequest 0 "/")
             (mkWorld fresh_response [] [] [])
    = Ret None w2
    /\ response w2
       = response (mkWorld (mkResponseData true [(200%Z, BodyString "ok")]) [] [] [])
    /\ spawned w2 = [] ++ [counter_key (Opaque "late failure")]
    /\ exists rest,
         logs w2
         = [] ++ mkLogEntry LevelInfo "ERROR"
                   [("err", Error_text (Opaque "late failure"))] :: rest.
Proof.
  exact (late_error_keeps_response (New "cellar")
           (NewController (New "cellar") "bottle") DefaultErrorHandler
           answer_then_fail (mkContext [] [] None) Tracker (mkRequest 0 "/")
           (Opaque "late failure") (mkWorld fresh_response [] [] [])
           (mkWorld (mkResponseData true [(200%Z, BodyString "ok")]) [] [] [])
           (or_introl eq_refl) eq_refl eq_refl eq_refl eq_refl).
Defined.

(** ** Decoding and the chain *)

(** X13: the body is decoded before the middleware chain is entered and
    outside of it (lines 252-270): when the unmarshaler panics on a request
    with [ContentLength > 0], the entry point panics whatever middleware
    the controller has, so that no middleware can recover from it. *)
Theorem unmarshaler_runs_outside_chain service st ctrl name hdlr u st' rw req
    params w w1 :
  (ContentLength req > 0)%Z ->
  u (request_context ctrl name req params) req (request_world w) = Panicked w1 ->
  MuxHandler service st ctrl name hdlr (Some u) st' rw req params w = Panicked w1.
Proof.
  intros Hpos Hu. rewrite MuxHandler_decoding by exact Hpos. rewrite Hu.
  reflexivity.
Qed.

Lemma unmarshaler_runs_outside_chain_witness :
  MuxHandler (New "cellar") (bottle_with recover).2 (bottle_with recover).1
             "create" succeed (Some panicking) (bottle_with recover).2 RawWriter
             (mkRequest 12 "/bottles") ∅ (mkWorld fresh_response [] [] [])
  = Panicked (mkWorld fresh_response [] [] []).
Proof.
  exact (unmarshaler_runs_outside_chain (New "cellar") (bottle_with recover).2
           (bottle_with recover).1 "create" succeed panicking
           (bottle_with recover).2 RawWriter (mkRequest 12 "/bottles") ∅
           (mkWorld fresh_response [] [] []) (mkWorld fresh_response [] [] [])
           eq_refl eq_refl).
Defined.

(** The same middleware does recover from a panic of the business
    handler. *)
Example recover_catches_handler_panic :
  MuxHandler (New "cellar") (bottle_with recover).2 (bottle_with recover).1
             "create" exploding None (bottle_with recover).2 RawWriter
             (mkRequest 12 "/bottles") ∅ (mkWorld fresh_response [] [] [])
  = Ret tt (mkWorld (mkResponseData true [(500%Z, BodyString "panic")]) [] [] []).
Proof. reflexivity. Qed.

(** ** Inherited configuration *)

Lemma Controller_Use_keeps_handler growth (ctrl : Controller.t) (c : Middleware)
    (st : Store) :
  Controller.ErrorHandler (Controller_Use growth ctrl c st).1
  = Controller.ErrorHandler ctrl.
Proof.
  unfold Controller_Use.
  destruct (append growth (Controller.Middleware ctrl) c st). reflexivity.
Qed.

Lemma Service_Use_keeps_handler growth (service : Service.t) (m : Middleware)
    (st : Store) :
  Service.ErrorHandler (Service_Use growth service m st).1
  = Service.ErrorHandler service.
Proof.
  unfold Service_Use.
  destruct (append growth (Service.Middleware service) m st). reflexivity.
Qed.

Lemma Controller_Use_all_keeps_handler growth (ctrl : Controller.t)
    (cs : list Middleware) (st : Store) :
  Controller.ErrorHandler (Controller_Use_all growth ctrl cs st).1
  = Controller.ErrorHandler ctrl.
Proof.
  revert ctrl st. induction cs as [|c cs IH]; intros ctrl st; [reflexivity|].
  rewrite Controller_Use_all_cons, IH. apply Controller_Use_keeps_handler.
Qed.

Lemma Service_Use_all_keeps_handler growth (service : Service.t)
    (ms : list Middleware) (st : Store) :
  Service.ErrorHandler (Service_Use_all growth service ms st).1
  = Service.ErrorHandler service.
Proof.
  revert service st. induction ms as [|m ms IH]; intros service st; [reflexivity|].
  rewrite Service_Use_all_cons, IH. apply Service_Use_keeps_handler.
Qed.

(** X14: a controller takes the error handler of its service when it is
    created (line 148), and registering middleware on either of them
    (lines 110-112, 204-206) never changes it. In particular every
    controller of a service made by [New] (line 89) has the verbose policy
    as its error handler, so that the handler substituted after a decoding
    failure does not call nil. *)
Theorem controller_inherits_handler :
  (forall growth service resName (ms cs : list Middleware) (st st1 : Store),
      Controller.ErrorHandler
        (Controller_Use_all growth
           (NewController (Service_Use_all growth service ms st).1 resName)
           cs st1).1
      = Service.ErrorHandler service)
  /\ (forall growth name resName (ms cs : list Middleware) (st st1 : Store)
             err ctx rw req w,
      invalid_payload
        (Controller_Use_all growth
           (NewController (Service_Use_all growth (New name) ms st).1 resName)
           cs st1).1
        err ctx rw req w
      = (DefaultErrorHandler ctx rw req (ErrInvalidEncoding err) ;; ret None) w).
Proof.
  assert (H : forall growth service resName (ms cs : list Middleware)
                     (st st1 : Store),
             Controller.ErrorHandler
               (Controller_Use_all growth
                  (NewController (Service_Use_all growth service ms st).1 resName)
                  cs st1).1
             = Service.ErrorHandler service).
  { intros. rewrite Controller_Use_all_keeps_handler.
    cbn [NewController Controller.ErrorHandler].
    apply Service_Use_all_keeps_handler. }
  split; [exact H|].
  intros. apply invalid_payload_set. rewrite H. reflexivity.
Qed.
